(** * HantekDSO2D10: the waveform decoder of [HantekDSO2000.get_waveform]

    A shallow embedding of the chunked block transfer read by
    [get_waveform] in [HantekDSO2D10.py]: the packet reader [readPacket]
    and its [while not readPacket(): pass] loop, the decoding of the 99-byte
    metadata region, the extraction of one channel from the interleaved
    2000-byte blocks, and the conversion to time and voltage.

    Python values are modelled as follows: [bytes] and [bytearray] are
    [list byte]; [int] is [Z]; a [str] that is decoded or parsed is the
    list of its code points; [float] is the primitive IEEE 754 binary64
    [float]; an exception is the [Raise] case of [outcome].  The instrument
    is the list of what successive [read_raw()] calls deliver, with the two
    replies to the calibration queries. *)

From Stdlib Require Import ZArith Lia Bool.
From Stdlib Require Import Strings.Byte Strings.String.
From Stdlib Require Import Numbers.DecimalString.
From Stdlib Require Import Floats.PrimFloat Floats.SpecFloat Floats.FloatOps.
From stdpp Require Import base list gmap strings.

Local Open Scope Z_scope.

(** ** Python runtime: exceptions *)

Inductive exn : Type :=
| IndexError
| ValueError
| UnicodeDecodeError
| StructError
| ZeroDivisionError
| VisaIOError (status : Z).

Inductive outcome (A : Type) : Type :=
| Ok (a : A)
| Raise (e : exn).
Arguments Ok {A} a.
Arguments Raise {A} e.

#[global] Instance outcome_ret : MRet outcome := fun A a => Ok a.
#[global] Instance outcome_bind : MBind outcome := fun A B f m =>
  match m with
  | Ok a => f a
  | Raise e => Raise e
  end.

(** ** Python runtime: sequences of bytes *)

Abbreviation bytes := (list byte).

Definition ord (b : byte) : Z := Z.of_N (Byte.to_N b).

(** [l[i]] and [l[i] = b]: an index in [[-len, 0)] counts from the end,
    anything outside [[-len, len)] raises [IndexError]. *)
Definition py_index (len : nat) (i : Z) : outcome nat :=
  let n := Z.of_nat len in
  if (0 <=? i) && (i <? n) then Ok (Z.to_nat i)
  else if (- n <=? i) && (i <? 0) then Ok (Z.to_nat (i + n))
  else Raise IndexError.

Definition py_getitem (l : bytes) (i : Z) : outcome byte :=
  k ← py_index (length l) i;
  match l !! k with
  | Some b => Ok b
  | None => Raise IndexError
  end.

Definition py_setitem (l : bytes) (i : Z) (b : byte) : outcome bytes :=
  k ← py_index (length l) i;
  Ok (<[k:=b]> l).

(** [l[i:j]]: negative bounds count from the end, both are clipped. *)
Definition clip (len : nat) (i : Z) : nat :=
  let n := Z.of_nat len in
  if i <? 0 then Z.to_nat (Z.max (i + n) 0) else Z.to_nat (Z.min i n).

Definition py_slice (l : bytes) (i j : Z) : bytes :=
  let a := clip (length l) i in
  let b := clip (length l) j in
  take (b - a)%nat (drop a l).

(** [bytearray(n)]: [n] zero bytes, [ValueError] for a negative count. *)
Definition bytearray (n : Z) : outcome bytes :=
  if n <? 0 then Raise ValueError else Ok (replicate (Z.to_nat n) x00).

(** ** Python runtime: text

    A [str] is the list of its code points. [bytes.decode()] is the strict
    UTF-8 decoder: one to four bytes for a character, the shortest
    encoding only, no surrogate and nothing above [U+10FFFF]; anything
    else raises [UnicodeDecodeError]. *)

Abbreviation str := (list Z).

Definition byte_of_Z (z : Z) : byte :=
  match Byte.of_N (Z.to_N z) with
  | Some b => b
  | None => x00
  end.

Definition continuation (n : Z) : bool := (128 <=? n) && (n <=? 191).

Fixpoint decode (s : bytes) : outcome str :=
  match s with
  | [] => Ok []
  | b0 :: r0 =>
      let n0 := ord b0 in
      if n0 <? 128 then cs ← decode r0; Ok (n0 :: cs)
      else
        match r0 with
        | [] => Raise UnicodeDecodeError
        | b1 :: r1 =>
            let n1 := ord b1 in
            if (192 <=? n0) && (n0 <=? 223) then
              let c := (n0 - 192) * 64 + (n1 - 128) in
              if continuation n1 && (128 <=? c)
              then cs ← decode r1; Ok (c :: cs)
              else Raise UnicodeDecodeError
            else
              match r1 with
              | [] => Raise UnicodeDecodeError
              | b2 :: r2 =>
                  let n2 := ord b2 in
                  if (224 <=? n0) && (n0 <=? 239) then
                    let c := (n0 - 224) * 4096 + (n1 - 128) * 64 + (n2 - 128) in
                    if continuation n1 && continuation n2 && (2048 <=? c) &&
                       negb ((55296 <=? c) && (c <=? 57343))
                    then cs ← decode r2; Ok (c :: cs)
                    else Raise UnicodeDecodeError
                  else
                    match r2 with
                    | [] => Raise UnicodeDecodeError
                    | b3 :: r3 =>
                        let n3 := ord b3 in
                        let c := (n0 - 240) * 262144 + (n1 - 128) * 4096 +
                                 (n2 - 128) * 64 + (n3 - 128) in
                        if (240 <=? n0) && (n0 <=? 247) &&
                           continuation n1 && continuation n2 && continuation n3 &&
                           (65536 <=? c) && (c <=? 1114111)
                        then cs ← decode r3; Ok (c :: cs)
                        else Raise UnicodeDecodeError
                    end
              end
        end
  end.

(** White space: what [str.strip()] removes from a [str] ([str.isspace]
    of one character), and what [int] and [float] skip around an ASCII
    numeral (C [isspace]). *)
Definition unicode_space (c : Z) : bool :=
  ((9 <=? c) && (c <=? 13)) || ((28 <=? c) && (c <=? 32)) ||
  (c =? 133) || (c =? 160) || (c =? 5760) ||
  ((8192 <=? c) && (c <=? 8202)) ||
  (c =? 8232) || (c =? 8233) || (c =? 8239) || (c =? 8287) || (c =? 12288).

Definition bytes_space (b : byte) : bool :=
  let n := ord b in
  ((9 <=? n) && (n <=? 13)) || (n =? 32).

Fixpoint lstrip {A : Type} (sp : A → bool) (s : list A) : list A :=
  match s with
  | b :: r => if sp b then lstrip sp r else s
  | [] => []
  end.

Definition strip {A : Type} (sp : A → bool) (s : list A) : list A :=
  reverse (lstrip sp (reverse (lstrip sp s))).

(** The decimal digits of Unicode 14.0, which CPython 3.11 carries: each
    code point listed is a digit zero and the nine after it are the
    digits one to nine of the same script. *)
Definition decimal_zeros : list Z :=
  [48; 1632; 1776; 1984; 2406; 2534; 2662; 2790; 2918; 3046; 3174; 3302;
   3430; 3558; 3664; 3792; 3872; 4160; 4240; 6112; 6160; 6470; 6608; 6784;
   6800; 6992; 7088; 7232; 7248; 42528; 43216; 43264; 43472; 43504; 43600;
   44016; 65296; 66720; 68912; 69734; 69872; 69942; 70096; 70384; 70736;
   70864; 71248; 71360; 71472; 71904; 72016; 72784; 73040; 73120; 92768;
   92864; 93008; 120782; 120792; 120802; 120812; 120822; 123200; 123632;
   125264; 130032].

Definition unicode_decimal (c : Z) : option Z :=
  match find (λ z, (z <=? c) && (c <? z + 10)) decimal_zeros with
  | Some z => Some (c - z)
  | None => None
  end.

(** What [int] and [float] parse when given a [str]: an ASCII string as
    it is; in any other, a character below 127 as it is, a space of
    Unicode as a blank, a decimal digit of Unicode as its ASCII digit, and
    at the first character that is none of these a question mark, where
    the text is cut. *)
Fixpoint to_ascii (s : str) : bytes :=
  match s with
  | [] => []
  | c :: r =>
      if c <? 127 then byte_of_Z c :: to_ascii r
      else if unicode_space c then x20 :: to_ascii r
      else
        match unicode_decimal c with
        | Some d => byte_of_Z (48 + d) :: to_ascii r
        | None => [x3f]
        end
  end.

Definition ascii_of_str (s : str) : bytes :=
  if forallb (λ c, c <? 128) s then map byte_of_Z s else to_ascii s.

(** ** Python runtime: text to integers *)

Definition digit_val (b : byte) : option Z :=
  let n := ord b in
  if (48 <=? n) && (n <=? 57) then Some (n - 48) else None.

Definition is_digit (b : byte) : bool :=
  match digit_val b with Some _ => true | None => false end.

(** [digitpart ::= digit (["_"] digit)*], read greedily: the digits read
    and the rest of the text. *)
Fixpoint scan_digitpart (s : bytes) : list Z * bytes :=
  match s with
  | b :: r =>
      match digit_val b with
      | Some d =>
          match r with
          | u :: r' =>
              if Byte.eqb u x5f then
                match r' with
                | b2 :: _ =>
                    if is_digit b2
                    then let '(ds, rest) := scan_digitpart r' in (d :: ds, rest)
                    else ([d], r)
                | [] => ([d], r)
                end
              else let '(ds, rest) := scan_digitpart r in (d :: ds, rest)
          | [] => ([d], [])
          end
      | None => ([], s)
      end
  | [] => ([], [])
  end.

Definition decimal (ds : list Z) : Z :=
  fold_left (fun acc d => 10 * acc + d) ds 0.

(** An optional sign: whether it is a minus, and the rest. *)
Definition take_sign (s : bytes) : bool * bytes :=
  match s with
  | b :: r =>
      if Byte.eqb b x2d then (true, r)
      else if Byte.eqb b x2b then (false, r)
      else (false, s)
  | [] => (false, [])
  end.

(** [int(b)] in base 10 for a [bytes] object, [int(s)] for a [str], and
    [int(b.decode())]. *)
Definition int_bytes (b : bytes) : outcome Z :=
  let '(neg, s1) := take_sign (strip bytes_space b) in
  let '(ds, rest) := scan_digitpart s1 in
  match ds, rest with
  | _ :: _, [] => Ok (if neg then - decimal ds else decimal ds)
  | _, _ => Raise ValueError
  end.

Definition int_str (s : str) : outcome Z := int_bytes (ascii_of_str s).

Definition int_decode (b : bytes) : outcome Z :=
  s ← decode b; int_str s.

(** ** Python runtime: floats

    [float] is IEEE 754 binary64. An [int] converts to the nearest float
    (exactly below [2^53]); a decimal numeral [m * 10^e] converts to the
    nearest float, ties to even, as [float(str)] does. *)

Definition float_of_Z (z : Z) : float :=
  SF2Prim (binary_normalize prec emax z 0 false).

Definition float_of_decimal (neg : bool) (m e : Z) : float :=
  SF2Prim
    (if m =? 0 then S754_zero neg
     else if 0 <=? e then binary_normalize prec emax (cond_Zopp neg (m * 10 ^ e)) 0 neg
     else
       let d := 10 ^ (- e) in
       let k := Z.max 0 (Z.log2 d - Z.log2 m + 64) in
       let n := m * 2 ^ k in
       let q := n / d in
       let r := n mod d in
       let l := if r =? 0 then loc_Exact else loc_Inexact (2 * r ?= d) in
       binary_round_aux prec emax neg q (- k) l).

Definition lower_ord (b : byte) : Z :=
  let n := ord b in
  if (65 <=? n) && (n <=? 90) then n + 32 else n.

Definition is_word (w : string) (s : bytes) : bool :=
  bool_decide (map lower_ord s = map ord (list_byte_of_string w)).

(** The exponent part [("e" | "E") [sign] digitpart], when there is one:
    its value and the rest; [None] when an exponent mark has no digits. *)
Definition scan_exponent (s : bytes) : option (Z * bytes) :=
  match s with
  | b :: r =>
      if lower_ord b =? 101 then
        let '(neg, r1) := take_sign r in
        let '(ds, rest) := scan_digitpart r1 in
        match ds with
        | [] => None
        | _ :: _ => Some (if neg then - decimal ds else decimal ds, rest)
        end
      else Some (0, s)
  | [] => Some (0, [])
  end.

(** [float(b)] for a [bytes] object:
    [[sign] (inf | infinity | nan | number [exponent])] with
    [number ::= [digitpart] "." digitpart | digitpart ["."]]. *)
Definition float_bytes (b : bytes) : outcome float :=
  let '(neg, s1) := take_sign (strip bytes_space b) in
  if is_word "inf" s1 || is_word "infinity" s1
  then Ok (if neg then neg_infinity else infinity)
  else if is_word "nan" s1 then Ok nan
  else
    let '(ip, r1) := scan_digitpart s1 in
    let '(fp, r2, dot) :=
      match r1 with
      | b :: r =>
          if Byte.eqb b x2e
          then let '(fp, r2) := scan_digitpart r in (fp, r2, true)
          else ([], r1, false)
      | [] => ([], [], false)
      end in
    let well_formed :=
      match ip, fp with
      | [], [] => false
      | _, _ => true
      end in
    match scan_exponent r2 with
    | Some (ex, []) =>
        if well_formed
        then Ok (float_of_decimal neg (decimal (ip ++ fp)) (ex - Z.of_nat (length fp)))
        else Raise ValueError
    | _ => Raise ValueError
    end.

(** [float(s)] for a [str] [s], and [float(b.decode())]. *)
Definition float_str (s : str) : outcome float := float_bytes (ascii_of_str s).

Definition float_decode (b : bytes) : outcome float :=
  s ← decode b; float_str s.

(** A [bytes] literal and a [str] literal of ASCII characters. *)
Definition B (s : string) : bytes := list_byte_of_string s.

Definition text (s : string) : str := map ord (B s).

(** ** The packet reader

    The variables that [readPacket] shares with [get_waveform] through
    [nonlocal], with the calls made to [progress_callback] so far. *)

Record reader : Type := Reader {
  samples_total : Z;
  samples_data : bytes;
  samples_got : Z;
  meta : bytes;
  progress : list (Z * Z)
}.

Definition reader_init : reader :=
  {| samples_total := -1; samples_data := []; samples_got := 0;
     meta := []; progress := [] |}.

Definition end_of_meta : Z := 128.

(** [for i in range(0, cur_len): samples_data[cur_pos + i] = inp[end_of_meta + i]],
    on the bytes [inp[end_of_meta:]]. *)
Fixpoint write_payload (data : bytes) (cur_pos : Z) (payload : bytes) : outcome bytes :=
  match payload with
  | [] => Ok data
  | b :: rest =>
      data' ← py_setitem data cur_pos b;
      write_payload data' (cur_pos + 1) rest
  end.

(** One call of [readPacket] on the response [inp] of [read_raw()], with
    [cb] telling whether a [progress_callback] was given: the variables
    after the call and the value returned. *)
Definition readPacket (cb : bool) (st : reader) (inp : bytes) : outcome (reader * bool) :=
  b0 ← py_getitem inp 0;
  if negb (Byte.eqb b0 x23) then Ok (st, false) else
  b1 ← py_getitem inp 1;
  if negb (Byte.eqb b1 x39) then Ok (st, false) else
  this_len ← int_decode (py_slice inp 2 11);
  if this_len =? 0 then Ok (st, false) else
  total_smpls ← int_decode (py_slice inp 11 20);
  cur_pos ← int_decode (py_slice inp 20 29);
  let start := 29 in
  let fill (total : Z) (data m : bytes) : outcome (reader * bool) :=
    let cur_len := Z.of_nat (length inp) - end_of_meta in
    data' ← write_payload data cur_pos (drop (Z.to_nat end_of_meta) inp);
    let got := samples_got st + cur_len in
    let st' :=
      {| samples_total := total; samples_data := data'; samples_got := got;
         meta := m;
         progress := if cb then progress st ++ [(got, total)] else progress st |} in
    Ok (st', got =? total) in
  if samples_total st =? -1 then
    data ← bytearray total_smpls;
    fill total_smpls data (py_slice inp start end_of_meta)
  else if negb (samples_total st =? total_smpls) then Ok (st, false)
  else fill (samples_total st) (samples_data st) (meta st).

(** What the instrument delivers to one [write] and [read_raw()] round
    trip: a response, or a transport failure raised by pyvisa. *)
Inductive delivery : Type :=
| Response (inp : bytes)
| Failure (status : Z).

(** [while not readPacket(): pass] against the deliveries of the
    instrument, in order. When they are used up and no packet has
    completed the transfer, the loop is about to read again. *)
Inductive transfer : Type :=
| Completed (st : reader)
| Raised (e : exn)
| Reading (st : reader).

Fixpoint read_loop (cb : bool) (st : reader) (ds : list delivery) : transfer :=
  match ds with
  | [] => Reading st
  | Failure status :: _ => Raised (VisaIOError status)
  | Response inp :: rest =>
      match readPacket cb st inp with
      | Raise e => Raised e
      | Ok (st', true) => Completed st'
      | Ok (st', false) => read_loop cb st' rest
      end
  end.

(** ** Metadata

    [struct.unpack('cc 16x 7s7s7s7s cccc 9s 6s 9x 9s 6s 10x', meta)]: the
    format has no alignment padding and describes exactly 99 bytes. *)

Record meta_fields : Type := MetaFields {
  running : bytes;
  trigger : bytes;
  v1 : bytes; v2 : bytes; v3 : bytes; v4 : bytes;
  c1e : bytes; c2e : bytes; c3e : bytes; c4e : bytes;
  sampling_rate : bytes;
  sampling_multiple : bytes;
  trigger_time : bytes;
  acq_start : bytes
}.

Definition unpack_meta (m : bytes) : outcome meta_fields :=
  if (length m =? 99)%nat then
    Ok {| running := py_slice m 0 1; trigger := py_slice m 1 2;
          v1 := py_slice m 18 25; v2 := py_slice m 25 32;
          v3 := py_slice m 32 39; v4 := py_slice m 39 46;
          c1e := py_slice m 46 47; c2e := py_slice m 47 48;
          c3e := py_slice m 48 49; c4e := py_slice m 49 50;
          sampling_rate := py_slice m 50 59;
          sampling_multiple := py_slice m 59 65;
          trigger_time := py_slice m 74 83;
          acq_start := py_slice m 83 89 |}
  else Raise StructError.

(** What [get_waveform] keeps of the metadata. *)
Record decoded : Type := Decoded {
  channel_count : Z;
  sr : float;
  tt : float
}.

(** [try: sr = float(sampling_rate.decode()) except: sr = float(sampling_rate)] *)
Definition decode_sampling_rate (field : bytes) : outcome float :=
  match float_decode field with
  | Ok x => Ok x
  | Raise _ => float_bytes field
  end.

(** [tt_str = trigger_time.decode()] and [float(tt_str.strip())], the body
    of the [try] around the trigger time, then the whole statement with
    its [except: tt = 0.0]. *)
Definition parse_trigger_time (field : bytes) : outcome float :=
  tt_str ← decode field; float_str (strip unicode_space tt_str).

Definition decode_trigger_time (field : bytes) : float :=
  match parse_trigger_time field with
  | Ok x => x
  | Raise _ => 0%float
  end.

Definition decode_meta (m : bytes) : outcome decoded :=
  f ← unpack_meta m;
  n1 ← int_bytes (c1e f);
  n2 ← int_bytes (c2e f);
  n3 ← int_bytes (c3e f);
  n4 ← int_bytes (c4e f);
  rate ← decode_sampling_rate (sampling_rate f);
  Ok {| channel_count := n1 + n2 + n3 + n4; sr := rate;
        tt := decode_trigger_time (trigger_time f) |}.

(** ** Channel extraction *)

Definition block_len : Z := 2000.

(** [len(range(lo, hi, step))] for a positive step, and [range]. *)
Definition range_len (lo hi step : Z) : nat :=
  if lo <? hi then Z.to_nat ((hi - lo - 1) / step + 1) else 0%nat.

Definition py_range (start stop step : Z) : outcome (list Z) :=
  if step =? 0 then Raise ValueError
  else
    let n := if 0 <? step then range_len start stop step
             else range_len stop start (- step) in
    Ok (map (fun j => start + Z.of_nat j * step) (seq 0 n)).

(** The value of a byte read with the [struct] code [b]. *)
Definition signed (b : byte) : Z :=
  if ord b <? 128 then ord b else ord b - 256.

(** [struct.unpack('%db' % block_len, block)] *)
Definition unpack_block (block : bytes) : outcome (list Z) :=
  if Z.of_nat (length block) =? block_len then Ok (map signed block)
  else Raise StructError.

(** The body of the extraction loop over the block starts [starts],
    [samples.extend(...)] being the concatenation. *)
Fixpoint extend_blocks (data : bytes) (starts : list Z) (samples : list Z)
  : outcome (list Z) :=
  match starts with
  | [] => Ok samples
  | i :: rest =>
      blk ← unpack_block (py_slice data i (i + block_len));
      extend_blocks data rest (samples ++ blk)
  end.

Definition extract (data : bytes) (count ch : Z) : outcome (list Z) :=
  starts ← py_range ((ch - 1) * block_len) (Z.of_nat (length data)) (block_len * count);
  extend_blocks data starts [].

(** ** Calibration *)

Definition grid_y : Z := 25.

(** [v / grid_y * scale - offset]; the quotient of two [int]s below [2^53]
    is the quotient of their floats. *)
Definition voltage (scale offset : float) (v : Z) : float :=
  (float_of_Z v / float_of_Z grid_y * scale - offset)%float.

Definition voltaje (samples : list Z) (scale offset : float) : list float :=
  map (voltage scale offset) samples.

(** [i / sr] for an [int] [i]: Python raises on a zero divisor. *)
Definition div_int_float (i : Z) (x : float) : outcome float :=
  if (x =? 0)%float then Raise ZeroDivisionError else Ok (float_of_Z i / x)%float.

(** [[i / sr - tt for i in range(len(samples))]], from index [i] on. *)
Fixpoint time_axis (i : Z) (n : nat) (rate t0 : float) : outcome (list float) :=
  match n with
  | O => Ok []
  | S n' =>
      q ← div_int_float i rate;
      rest ← time_axis (i + 1) n' rate t0;
      Ok ((q - t0)%float :: rest)
  end.

Definition tiempo (samples : list Z) (rate t0 : float) : outcome (list float) :=
  time_axis 0 (length samples) rate t0.

(** Extraction onwards, given the two replies [offset] and [scale]. *)
Definition calibrate (samples : list Z) (scale offset rate t0 : float)
  : outcome (list float * list float) :=
  let v := voltaje samples scale offset in
  t ← tiempo samples rate t0;
  Ok (t, v).

(** ** The whole fetch *)

Record instrument : Type := Instrument {
  deliveries : list delivery;
  offset_reply : outcome str;
  scale_reply : outcome str
}.

(** What follows the packet loop inside the [try] block. *)
Definition after_transfer (ch : Z) (io : instrument) (st : reader)
  : outcome (list float * list float) :=
  d ← decode_meta (meta st);
  samples ← extract (samples_data st) (channel_count d) ch;
  so ← offset_reply io;
  offset ← float_str so;
  ss ← scale_reply io;
  scale ← float_str ss;
  calibrate samples scale offset (sr d) (tt d).

(** The value returned by [get_waveform]: the pair [(tiempo, voltaje)],
    [None, None] from the [except] clause, or no value yet when the packet
    loop is still reading. *)
Inductive fetched : Type :=
| Returned (t v : option (list float))
| Pending.

Definition get_waveform (ch : Z) (cb : bool) (io : instrument) : fetched :=
  match read_loop cb reader_init (deliveries io) with
  | Reading _ => Pending
  | Raised _ => Returned None None
  | Completed st =>
      match after_transfer ch io st with
      | Ok (t, v) => Returned (Some t) (Some v)
      | Raise _ => Returned None None
      end
  end.

(** ** The instrument's side of the wire format

    Responses as the instrument frames them, used to build transfers:
    the marker, three 9-digit decimal fields, the metadata region and the
    payload. *)

Definition dec9 (n : Z) : bytes :=
  map (fun k => byte_of_Z (48 + (n / 10 ^ k) mod 10)) [8; 7; 6; 5; 4; 3; 2; 1; 0].

Definition packet (this_len total_smpls cur_pos : Z) (m payload : bytes) : bytes :=
  [x23; x39] ++ dec9 this_len ++ dec9 total_smpls ++ dec9 cur_pos ++ m ++ payload.

(** A metadata region with the given channel flags, sampling rate and
    trigger time fields, the other bytes being zero. *)
Definition meta_region (flags rate ttime : bytes) : bytes :=
  replicate 46 x00 ++ flags ++ rate ++ replicate 15 x00 ++ ttime ++ replicate 16 x00.

Set Warnings "-inexact-float".

(** * The application

    The parts of [App] and of [HantekDSO2000] around the fetch that hold
    logic of their own. Widgets are left out: of a handler the model keeps
    the attributes it assigns, the commands it writes and the values it
    hands on; message boxes are not modelled. The texts of the
    application are only compared, cut and joined: such a [str] is a
    [string], one character for each element. *)

(** [str(n)] for an [int], and [s[:n]]. *)
Definition str_of_int (z : Z) : string := NilZero.string_of_int (Z.to_int z).

Definition str_prefix (n : nat) (s : string) : string := String.substring 0 n s.

(** [needle in hay] for two strings. *)
Fixpoint contains (needle hay : string) : bool :=
  String.prefix needle hay ||
  match hay with
  | EmptyString => false
  | String _ rest => contains needle rest
  end.

(** [HantekDSO2000.set_memory_depth]: the command it writes. *)
Definition set_memory_depth (points : Z) : string :=
  (":ACQuire:POINts " ++ str_of_int points)%string.

Module App.

(** [depth_map] of [App.set_memory_depth]. *)
Definition depth_map : gmap string Z :=
  {[ "4K"%string := 4000; "40K"%string := 40000;
     "400K"%string := 400000; "4M"%string := 4000000 ]}.

(** [App.set_memory_depth] with [depth_str] the text of the combo box and
    [wr] what the instrument does with a written command: the commands
    written, and the exception reported in the message box if any. *)
Definition set_memory_depth (is_connected : bool) (depth_str : string)
    (wr : string → outcome unit) : list string * option exn :=
  if negb is_connected then ([], None)
  else
    let depth_val := default 4000 (depth_map !! depth_str) in
    let cmd := set_memory_depth depth_val in
    match wr cmd with
    | Ok _ => ([cmd], None)
    | Raise e => ([cmd], Some e)
    end.

(** [App.autodetect_hantek] over the resources listed, each with what
    opening it, querying [*IDN?] and closing it give: the identification,
    or an exception of any of the three (the bare [except: continue]).
    The result is the resource put in the entry with the status text, or
    nothing found. *)
Definition is_hantek (idn : string) : bool :=
  contains "Hantek" idn || contains "HANTEK" idn || contains "DSO2" idn.

Inductive detection : Type :=
| Detected (r : string) (status : string)
| NotFound.

Fixpoint autodetect_hantek (res : list (string * outcome string)) : detection :=
  match res with
  | [] => NotFound
  | (r, probe) :: rest =>
      match probe with
      | Ok idn =>
          if is_hantek idn
          then Detected r ("Detectado: " ++ str_prefix 30 idn ++ "...")%string
          else autodetect_hantek rest
      | Raise _ => autodetect_hantek rest
      end
  end.

(** The data rows that [App.save_data_csv] hands to the writer, from the
    results [(t1, v1)] and [(t2, v2)] of the two fetches. A cell is a
    number or the empty string ([None]). *)
Definition cell : Type := option float.

Definition len_or_0 (t : option (list float)) : nat :=
  match t with
  | Some l => length l
  | None => 0%nat
  end.

(** [t[i] if (t is not None and i < len(t)) else ""] *)
Definition item_or_blank (t : option (list float)) (i : nat) : cell :=
  match t with
  | Some l => l !! i
  | None => None
  end.

Definition csv_rows (t1 v1 t2 v2 : option (list float)) : list (list cell) :=
  let max_len := (len_or_0 t1 `max` len_or_0 t2)%nat in
  map (λ i, [item_or_blank t1 i; item_or_blank v1 i;
             item_or_blank t2 i; item_or_blank v2 i])
      (seq 0 max_len).

(** The attributes and widget states that the connection and capture
    handlers assign; [threads] counts the capture threads started. *)
Record state : Type := State {
  is_connected : bool;
  is_running : bool;
  btn_connect : string;
  btn_cont_enabled : bool;
  status_var : string;
  threads : nat
}.

Definition init : state :=
  {| is_connected := false; is_running := false; btn_connect := "Conectar";
     btn_cont_enabled := true; status_var := "Desconectado"; threads := 0 |}.

Definition stop_continuous (a : state) : state :=
  {| is_connected := is_connected a; is_running := false;
     btn_connect := btn_connect a; btn_cont_enabled := true;
     status_var := status_var a; threads := threads a |}.

Definition unlock_button (a : state) : state :=
  {| is_connected := is_connected a; is_running := false;
     btn_connect := btn_connect a; btn_cont_enabled := true;
     status_var := "Botón desbloqueado"; threads := threads a |}.

Definition toggle_continuous (a : state) : state :=
  if negb (is_connected a) then a
  else
    {| is_connected := is_connected a; is_running := true;
       btn_connect := btn_connect a; btn_cont_enabled := false;
       status_var := status_var a; threads := S (threads a) |}.

(** [res] is the text of the VISA entry and [conn] what
    [scope.connect(res)] returns, were it called. The call of
    [set_memory_depth()] after a connection assigns nothing. *)
Definition toggle_connection (a : state) (res : string) (conn : bool * string) : state :=
  if negb (is_connected a) then
    if String.eqb res "" then a
    else
      let '(success, msg) := conn in
      if success then
        {| is_connected := true; is_running := is_running a;
           btn_connect := "Desconectar"; btn_cont_enabled := btn_cont_enabled a;
           status_var := ("Conectado: " ++ str_prefix 40 msg)%string;
           threads := threads a |}
      else a
  else
    let a' := stop_continuous a in
    {| is_connected := false; is_running := is_running a';
       btn_connect := "Conectar"; btn_cont_enabled := btn_cont_enabled a';
       status_var := "Desconectado"; threads := threads a' |}.

(** What the user does. *)
Inductive event : Type :=
| ToggleConnection (res : string) (conn : bool * string)
| ToggleContinuous
| StopContinuous
| UnlockButton.

Definition handle (a : state) (ev : event) : state :=
  match ev with
  | ToggleConnection res conn => toggle_connection a res conn
  | ToggleContinuous => toggle_continuous a
  | StopContinuous => stop_continuous a
  | UnlockButton => unlock_button a
  end.

End App.

(** * Vocabulary of the statements *)

(** ** Responses as [readPacket] sees them *)

(** A response that [readPacket] answers with [False], touching nothing. *)
Definition dropped (cb : bool) (st : reader) (inp : bytes) : Prop :=
  readPacket cb st inp = Ok (st, false).

(** The marker test of [readPacket] fails: the first byte is there and is
    not ['#'], or the second is there and is not ['9']. *)
Definition bad_marker (inp : bytes) : Prop :=
  (∃ b0, inp !! 0%nat = Some b0 ∧ b0 ≠ x23) ∨
  (inp !! 0%nat = Some x23 ∧ ∃ b1, inp !! 1%nat = Some b1 ∧ b1 ≠ x39).

Definition good_marker (inp : bytes) : Prop :=
  inp !! 0%nat = Some x23 ∧ inp !! 1%nat = Some x39.

(** The declared chunk length is zero. *)
Definition zero_length (inp : bytes) : Prop :=
  good_marker inp ∧ int_decode (py_slice inp 2 11) = Ok 0.

(** The header of a data packet: the marker and three decimal fields, the
    declared chunk length not being zero. *)
Record header (inp : bytes) (total_smpls cur_pos : Z) : Prop := {
  hd_marker : good_marker inp;
  hd_this_len : ∃ n, int_decode (py_slice inp 2 11) = Ok n ∧ n ≠ 0;
  hd_total : int_decode (py_slice inp 11 20) = Ok total_smpls;
  hd_pos : int_decode (py_slice inp 20 29) = Ok cur_pos
}.

(** The buffer is in use and has the declared size. *)
Definition allocated (st : reader) : Prop :=
  0 ≤ samples_total st ∧ Z.of_nat (length (samples_data st)) = samples_total st.

(** ** Chunks of a transfer

    A chunk is a write offset with the payload written there; [place] is
    what writing it does to a buffer that has room for it. *)

Definition chunk : Type := nat * bytes.

Definition place (data : bytes) (c : chunk) : bytes :=
  take c.1 data ++ c.2 ++ drop (c.1 + length c.2) data.

Definition fits (total : nat) (c : chunk) : Prop :=
  (c.1 + length c.2 ≤ total)%nat.

Definition inside (j : nat) (c : chunk) : Prop :=
  (c.1 ≤ j < c.1 + length c.2)%nat.

(** Chunks that pairwise do not overlap. *)
Definition apart (cs : list chunk) : Prop :=
  ∀ c c' j, c ∈ cs → c' ∈ cs → inside j c → inside j c' → c = c'.

(** Chunks that follow one another from [from] up to [to], none empty:
    in offset order, they cover [[from, to)] without overlap. *)
Fixpoint tiles (from : nat) (cs : list chunk) (to : nat) : Prop :=
  match cs with
  | [] => from = to
  | c :: rest => c.1 = from ∧ c.2 ≠ [] ∧ tiles (from + length c.2) rest to
  end.

Definition volume (cs : list chunk) : nat := sum_list (map (λ c : chunk, length c.2) cs).

(** A response that carries the chunk [c] of a transfer of [total]
    samples: a data packet header, the 128 bytes before the payload, and
    the payload. *)
Record carries (total : nat) (inp : bytes) (c : chunk) : Prop := {
  ca_header : header inp (Z.of_nat total) (Z.of_nat c.1);
  ca_size : (128 ≤ length inp)%nat;
  ca_payload : drop 128 inp = c.2
}.

(** The counts reported to the observer, from [g] samples received. *)
Fixpoint received (g : Z) (cs : list chunk) : list Z :=
  match cs with
  | [] => []
  | c :: rest =>
      let g' := g + Z.of_nat (length c.2) in
      g' :: received g' rest
  end.

Definition reports (cb : bool) (total : nat) (g : Z) (cs : list chunk) : list (Z * Z) :=
  if cb then map (λ g', (g', Z.of_nat total)) (received g cs) else [].

(** ** Metadata and blocks *)

(** A channel flag on the wire: the digit ['1'] when set, ['0'] when not. *)
Definition flag_byte (f : bool) : byte := if f then x31 else x30.

(** Where block [j] of channel [k] starts when [n] channels are enabled. *)
Definition block_start (n k : Z) (j : nat) : Z :=
  (k - 1) * 2000 + Z.of_nat j * (2000 * n).

(** The samples of the 2000-byte block of [data] that starts at [s]. *)
Definition block_samples (data : bytes) (s : Z) : list Z :=
  map signed (take 2000 (drop (Z.to_nat s) data)).

(** Bytes that are all ASCII characters, and bytes of which one is not. *)
Definition ascii (s : bytes) : Prop := Forall (λ b, ord b < 128) s.

Definition high (s : bytes) : Prop := ∃ b, b ∈ s ∧ 128 ≤ ord b.

(** The ASCII digits of a list of decimal digits. *)
Definition digit_bytes (ds : list Z) : bytes := map (λ d, byte_of_Z (48 + d)) ds.

(** A resource that [autodetect_hantek] goes past: probing it raised, or
    its identification names no Hantek. *)
Definition passed_over (x : string * outcome string) : Prop :=
  match x.2 with
  | Ok idn => App.is_hantek idn = false
  | Raise _ => True
  end.

(** What the handlers of [App] keep true. *)
Definition consistent (a : App.state) : Prop :=
  (App.is_running a = true → App.is_connected a = true) ∧
  App.btn_cont_enabled a = negb (App.is_running a) ∧
  App.btn_connect a = (if App.is_connected a then "Desconectar" else "Conectar")%string.

(** What holds of the observer's calls: none before the first data
    packet, then each with the declared total and the last with the count
    received; none at all without an observer. *)
Definition reported (cb : bool) (st : reader) : Prop :=
  if cb then
    (samples_total st = -1 ∧ progress st = []) ∨
    (samples_total st ≠ -1 ∧
     Forall (λ c : Z * Z, c.2 = samples_total st) (progress st) ∧
     ∃ earlier, progress st = earlier ++ [(samples_got st, samples_total st)])
  else progress st = [].

(** ** Example transfers *)

(** Metadata regions: channels 1 and 2 enabled, 100 MSa/s, trigger at
    1 ms; the same with a sampling rate, then a trigger time, that is no
    number; one channel enabled; a sampling rate of zero. *)
Definition m0 : bytes := meta_region (B"1100") (B"1.000E+08") (B"1.000E-03").

Definition m_bad_rate : bytes := meta_region (B"1100") (B"?????????") (B"1.000E-03").

Definition m_bad_time : bytes := meta_region (B"1100") (B"1.000E+08") (B"?????????").

Definition m_one : bytes := meta_region (B"1000") (B"1.000E+08") (B"1.000E-03").

Definition m_none : bytes := meta_region (B"0000") (B"1.000E+08") (B"1.000E-03").

Definition m_raw_flags : bytes :=
  meta_region [x01; x01; x00; x00] (B"1.000E+08") (B"1.000E-03").

Definition m_sum_flags : bytes := meta_region (B"1200") (B"2.500E+05") (B"1.000E-03").

Definition m_digit_flags : bytes := meta_region (B"1200") (B"1.000E+08") (B"1.000E-03").

Definition m_zero_rate : bytes := meta_region (B"1000") (B"0.000E+00") (B"1.000E-03").

(** Three packets of a transfer of 6 samples, the last two swapped, the
    chunks they carry, and these in offset order. *)
Definition swapped_inps : list bytes :=
  [packet 2 6 0 m0 [x01; x02]; packet 2 6 4 m0 [x05; x06]; packet 2 6 2 m0 [x03; x04]].

Definition swapped : list chunk :=
  [(0%nat, [x01; x02]); (4%nat, [x05; x06]); (2%nat, [x03; x04])].

Definition in_order : list chunk :=
  [(0%nat, [x01; x02]); (2%nat, [x03; x04]); (4%nat, [x05; x06])].

(** A response without the marker, a whole transfer in one packet, and a
    response that declares a chunk length of zero. *)
Definition stray : bytes := B"ERROR".

Definition one_packet : bytes := packet 2 2 0 m0 [x01; x02].

Definition no_chunk_yet : bytes := packet 0 6000 0 m0 [].

(** A response that ends after its header: 2 bytes of 2 at offset 0. *)
Definition header_only : bytes := B"#9000000002000000002000000000".

(** The state after the first of two packets of a transfer of 4 samples. *)
Definition under_way : reader :=
  {| samples_total := 4; samples_data := [x01; xff; x00; x00]; samples_got := 2;
     meta := m0; progress := [(2, 4)] |}.

(** The state when the one packet of [io_one_block] has been read. *)
Definition one_block_read : reader :=
  {| samples_total := 2000; samples_data := replicate 2000 x19; samples_got := 2000;
     meta := m_one; progress := [(2000, 2000)] |}.

(** A transfer of 4 samples for which 5 bytes have been counted. *)
Definition overshot : reader :=
  {| samples_total := 4; samples_data := [x01; xff; x00; x00]; samples_got := 5;
     meta := m0; progress := [] |}.

(** An instrument that delivers [ds] and answers the calibration queries
    with an offset of 0.0 and a scale of 1.0. *)
Definition replies (ds : list delivery) : instrument :=
  {| deliveries := ds; offset_reply := Ok (text "0.0"); scale_reply := Ok (text "1.0") |}.

(** The transport fails on the first read. *)
Definition io_transport : instrument := replies [Failure 7].

(** One channel enabled and a transfer of one block; the same with a
    sampling rate that is no number, with a sampling rate of zero, and
    with one byte more than a block; a transfer of no samples. *)
Definition io_one_block : instrument :=
  replies [Response (packet 2000 2000 0 m_one (replicate 2000 x19))].

Definition io_bad_rate : instrument :=
  replies [Response (packet 2000 2000 0 m_bad_rate (replicate 2000 x19))].

Definition io_zero_rate : instrument :=
  replies [Response (packet 2000 2000 0 m_zero_rate (replicate 2000 x19))].

Definition io_cut_block : instrument :=
  replies [Response (packet 2001 2001 0 m_one (replicate 2001 x19))].

Definition io_empty : instrument := replies [Response (packet 1 0 0 m_one [])].

(** * Properties *)

(** ** Indexing and slicing *)

Lemma py_index_nat (len k : nat) :
  (k < len)%nat → py_index len (Z.of_nat k) = Ok k.
Proof.
  intros Hk. unfold py_index.
  replace ((0 <=? Z.of_nat k) && (Z.of_nat k <? Z.of_nat len)) with true
    by (symmetry; apply andb_true_iff; split; [apply Z.leb_le | apply Z.ltb_lt]; lia).
  by rewrite Nat2Z.id.
Qed.

Lemma py_getitem_nat (l : bytes) (k : nat) (b : byte) :
  l !! k = Some b → py_getitem l (Z.of_nat k) = Ok b.
Proof.
  intros Hb. unfold py_getitem.
  rewrite py_index_nat by (by eapply lookup_lt_Some).
  simpl. by rewrite Hb.
Qed.

Lemma py_getitem_0 (l : bytes) (b : byte) :
  l !! 0%nat = Some b → py_getitem l 0 = Ok b.
Proof. apply (py_getitem_nat l 0). Qed.

Lemma py_getitem_1 (l : bytes) (b : byte) :
  l !! 1%nat = Some b → py_getitem l 1 = Ok b.
Proof. apply (py_getitem_nat l 1). Qed.

Lemma py_setitem_nat (l : bytes) (k : nat) (b : byte) :
  (k < length l)%nat → py_setitem l (Z.of_nat k) b = Ok (<[k:=b]> l).
Proof. intros Hk. unfold py_setitem. by rewrite py_index_nat. Qed.

(** ** The packet loop on responses that [readPacket] turns down *)

Lemma read_loop_dropped cb st inps rest :
  Forall (dropped cb st) inps →
  read_loop cb st (map Response inps ++ rest) = read_loop cb st rest.
Proof.
  induction 1 as [|inp inps Hd _ IH]; [done|].
  simpl. by rewrite Hd.
Qed.

Lemma read_loop_dropped_reading cb st inps :
  Forall (dropped cb st) inps →
  read_loop cb st (map Response inps) = Reading st.
Proof.
  intros H. rewrite <- (app_nil_r (map Response inps)).
  by rewrite read_loop_dropped.
Qed.

Lemma byte_eqb_neq (a b : byte) : a ≠ b → Byte.eqb a b = false.
Proof.
  intros Hab. destruct (Byte.eqb a b) eqn:E; [|done].
  by apply Byte.byte_dec_bl in E.
Qed.

Lemma readPacket_bad_marker cb st inp : bad_marker inp → dropped cb st inp.
Proof.
  unfold dropped, readPacket.
  intros [(b0 & H0 & Hne) | (H0 & b1 & H1 & Hne)].
  - rewrite (py_getitem_0 inp b0 H0). simpl.
    by rewrite (byte_eqb_neq _ _ Hne).
  - rewrite (py_getitem_0 inp _ H0). simpl.
    rewrite (py_getitem_1 inp b1 H1). simpl.
    by rewrite (byte_eqb_neq _ _ Hne).
Qed.

Lemma readPacket_zero_length cb st inp : zero_length inp → dropped cb st inp.
Proof.
  unfold dropped, readPacket. intros [[H0 H1] Hlen].
  rewrite (py_getitem_0 inp _ H0). simpl.
  rewrite (py_getitem_1 inp _ H1). simpl.
  by rewrite Hlen.
Qed.

Lemma readPacket_header cb st inp total_smpls cur_pos :
  header inp total_smpls cur_pos →
  readPacket cb st inp =
    let fill (total : Z) (data m : bytes) : outcome (reader * bool) :=
      data' ← write_payload data cur_pos (drop (Z.to_nat end_of_meta) inp);
      let got := samples_got st + (Z.of_nat (length inp) - end_of_meta) in
      Ok ({| samples_total := total; samples_data := data'; samples_got := got;
             meta := m;
             progress := if cb then progress st ++ [(got, total)] else progress st |},
          got =? total) in
    if samples_total st =? -1 then
      data ← bytearray total_smpls;
      fill total_smpls data (py_slice inp 29 end_of_meta)
    else if negb (samples_total st =? total_smpls) then Ok (st, false)
    else fill (samples_total st) (samples_data st) (meta st).
Proof.
  intros [[H0 H1] (n & Hn & Hn0) Ht Hp]. unfold readPacket.
  rewrite (py_getitem_0 inp _ H0). simpl.
  rewrite (py_getitem_1 inp _ H1). simpl.
  rewrite Hn. simpl. rewrite (proj2 (Z.eqb_neq n 0) Hn0).
  rewrite Ht. simpl. by rewrite Hp.
Qed.

Lemma readPacket_mismatch cb st inp total_smpls cur_pos :
  header inp total_smpls cur_pos →
  samples_total st ≠ -1 →
  samples_total st ≠ total_smpls →
  dropped cb st inp.
Proof.
  intros Hh Hin Hne. unfold dropped. rewrite (readPacket_header _ _ _ _ _ Hh).
  simpl. rewrite (proj2 (Z.eqb_neq _ _) Hin), (proj2 (Z.eqb_neq _ _) Hne). done.
Qed.

(** ** Writing chunks into the buffer *)

Lemma length_place data c : fits (length data) c → length (place data c) = length data.
Proof.
  unfold fits, place. intros Hf.
  rewrite !length_app, length_take, length_drop. lia.
Qed.

Lemma write_payload_place (p : bytes) : ∀ (data : bytes) (off : nat),
  fits (length data) (off, p) →
  write_payload data (Z.of_nat off) p = Ok (place data (off, p)).
Proof.
  unfold fits, place. simpl.
  induction p as [|b r IH]; intros data off Hf; simpl in *.
  - by rewrite Nat.add_0_r, take_drop.
  - rewrite py_setitem_nat by lia. simpl.
    replace (Z.of_nat off + 1) with (Z.of_nat (S off)) by lia.
    rewrite IH by (rewrite length_insert; lia). f_equal.
    destruct (lookup_lt_is_Some_2 data off) as [x Hx]; [lia|].
    rewrite take_insert_lt by lia.
    rewrite (take_S_r _ _ _ Hx).
    rewrite insert_app_r_alt by (rewrite length_take; lia).
    rewrite length_take. replace (off - off `min` length data)%nat with 0%nat by lia.
    simpl. rewrite <- app_assoc. simpl.
    rewrite drop_insert_lt by lia.
    by replace (S (off + length r)) with (off + S (length r))%nat by lia.
Qed.

Lemma lookup_place data c j :
  fits (length data) c →
  place data c !! j = if decide (inside j c) then c.2 !! (j - c.1)%nat else data !! j.
Proof.
  unfold fits, place, inside. intros Hf.
  destruct (decide _) as [Hin|Hout].
  - rewrite lookup_app_r by (rewrite length_take; lia).
    rewrite length_take, lookup_app_l by lia.
    f_equal. lia.
  - destruct (decide (j < c.1)%nat).
    + rewrite lookup_app_l by (rewrite length_take; lia).
      by rewrite lookup_take_lt.
    + rewrite lookup_app_r by (rewrite length_take; lia).
      rewrite lookup_app_r by (rewrite length_take; lia).
      rewrite length_take, lookup_drop. f_equal. lia.
Qed.

Lemma length_foldl_place cs : ∀ data,
  Forall (fits (length data)) cs → length (foldl place data cs) = length data.
Proof.
  induction cs as [|c cs IH]; intros data Hf; [done|].
  apply Forall_cons in Hf as [Hc Hcs]. simpl.
  rewrite IH; rewrite length_place; done.
Qed.

(** Writes elsewhere leave a position alone. *)
Lemma lookup_foldl_place_outside cs j : ∀ data,
  Forall (fits (length data)) cs →
  Forall (λ c, ¬ inside j c) cs →
  foldl place data cs !! j = data !! j.
Proof.
  induction cs as [|c cs IH]; intros data Hf Hout; [done|].
  apply Forall_cons in Hf as [Hc Hcs]. apply Forall_cons in Hout as [Hoc Hocs].
  simpl. rewrite IH; [| by rewrite length_place | done].
  rewrite lookup_place by done. by destruct (decide _).
Qed.

Lemma lookup_foldl_place_inside cs c j : ∀ data,
  Forall (fits (length data)) cs →
  NoDup cs → apart cs →
  c ∈ cs → inside j c →
  foldl place data cs !! j = c.2 !! (j - c.1)%nat.
Proof.
  induction cs as [|c0 cs IH]; intros data Hf Hnd Hap Hc Hj.
  { by apply elem_of_nil in Hc. }
  apply Forall_cons in Hf as [Hc0 Hcs]. apply NoDup_cons in Hnd as [Hnotin Hnd].
  simpl. apply elem_of_cons in Hc as [->|Hc].
  - rewrite lookup_foldl_place_outside.
    + rewrite lookup_place by done. by destruct (decide _).
    + by rewrite length_place.
    + apply Forall_forall. intros c' Hc' Hj'.
      apply Hnotin. rewrite (Hap c0 c' j); [done| left | by right | done | done].
  - apply IH; [by rewrite length_place | done | | done | done].
    intros a b i Ha Hb. apply Hap; by right.
Qed.

Lemma tiles_volume cs : ∀ a b, tiles a cs b → (a + volume cs = b)%nat.
Proof.
  induction cs as [|c cs IH]; intros a b; simpl.
  - unfold volume. simpl. lia.
  - intros (_ & _ & Ht). apply IH in Ht. unfold volume in *. simpl. lia.
Qed.

Lemma tiles_within cs : ∀ a b, tiles a cs b →
  Forall (λ c : chunk, a ≤ c.1 ∧ c.1 + length c.2 ≤ b ∧ c.2 ≠ [])%nat cs.
Proof.
  induction cs as [|c cs IH]; intros a b; simpl; [by constructor|].
  intros (Hc & Hne & Ht). pose proof (tiles_volume _ _ _ Ht) as Hv.
  apply Forall_cons. split; [split_and!; [lia|lia|done]|].
  eapply Forall_impl; [by apply IH|]. simpl. intros c' (? & ? & ?).
  split_and!; [lia|lia|done].
Qed.

Lemma tiles_NoDup cs : ∀ a b, tiles a cs b → NoDup cs.
Proof.
  induction cs as [|c cs IH]; intros a b; simpl; [constructor|].
  intros (Hc & Hne & Ht). apply NoDup_cons. split; [|by eapply IH].
  intros Hin. pose proof (tiles_within _ _ _ Ht) as Hw.
  rewrite Forall_forall in Hw. specialize (Hw _ Hin).
  destruct (c.2); [done|]. simpl in *. lia.
Qed.

Lemma tiles_apart cs : ∀ a b, tiles a cs b → apart cs.
Proof.
  induction cs as [|c cs IH]; intros a b; simpl.
  { intros _ c c' j Hc. by apply elem_of_nil in Hc. }
  intros (Hc & Hne & Ht) x y j Hx Hy Hjx Hjy.
  pose proof (tiles_within _ _ _ Ht) as Hw. rewrite Forall_forall in Hw.
  unfold inside in *.
  apply elem_of_cons in Hx as [->|Hx]; apply elem_of_cons in Hy as [->|Hy].
  - done.
  - specialize (Hw _ Hy). lia.
  - specialize (Hw _ Hx). lia.
  - eapply IH; done.
Qed.

Lemma tiles_concat cs : ∀ a b (data : bytes),
  tiles a cs b →
  (∀ c j, c ∈ cs → inside j c → data !! j = c.2 !! (j - c.1)%nat) →
  (b ≤ length data)%nat →
  take (b - a) (drop a data) = concat (map snd cs).
Proof.
  induction cs as [|c cs IH]; intros a b data; simpl.
  - intros -> _ _. by rewrite Nat.sub_diag.
  - intros (Hc & Hne & Ht) Hag Hlen.
    pose proof (tiles_volume _ _ _ Ht) as Hv.
    replace (b - a)%nat with (length c.2 + (b - (a + length c.2)))%nat by lia.
    rewrite <- take_take_drop. f_equal.
    + apply list_eq. intros i.
      destruct (decide (i < length c.2)%nat) as [Hi|Hi].
      * rewrite lookup_take_lt, lookup_drop by done.
        rewrite (Hag c (a + i)%nat); [f_equal; lia | by left | unfold inside; lia].
      * rewrite lookup_take_ge by lia. symmetry. apply lookup_ge_None. lia.
    + rewrite drop_drop. apply IH; [done| |done].
      intros c' j Hc'. apply Hag. by right.
Qed.

Lemma carries_cur_len total inp c :
  carries total inp c → Z.of_nat (length inp) - end_of_meta = Z.of_nat (length c.2).
Proof.
  intros [_ Hsz Hp]. rewrite <- Hp, length_drop. unfold end_of_meta. lia.
Qed.

Lemma readPacket_next cb st total inp c :
  carries total inp c → fits total c →
  samples_total st = Z.of_nat total →
  length (samples_data st) = total →
  readPacket cb st inp =
    let got := samples_got st + Z.of_nat (length c.2) in
    Ok ({| samples_total := Z.of_nat total;
           samples_data := place (samples_data st) c;
           samples_got := got;
           meta := meta st;
           progress := progress st ++ reports cb total (samples_got st) [c] |},
        got =? Z.of_nat total).
Proof.
  intros Hc Hf Ht Hlen.
  rewrite (readPacket_header _ _ _ _ _ (ca_header _ _ _ Hc)). simpl.
  rewrite Ht. replace (Z.of_nat total =? -1) with false by (symmetry; apply Z.eqb_neq; lia).
  rewrite Z.eqb_refl. simpl.
  change (Z.to_nat end_of_meta) with 128%nat.
  rewrite (ca_payload _ _ _ Hc), (carries_cur_len _ _ _ Hc).
  destruct c as [off p]. rewrite write_payload_place by (by rewrite Hlen).
  simpl. unfold reports. destruct cb; simpl; by rewrite ?app_nil_r.
Qed.

Lemma readPacket_first cb total inp c :
  carries total inp c → fits total c →
  readPacket cb reader_init inp =
    let got := Z.of_nat (length c.2) in
    Ok ({| samples_total := Z.of_nat total;
           samples_data := place (replicate total x00) c;
           samples_got := got;
           meta := py_slice inp 29 128;
           progress := reports cb total 0 [c] |},
        got =? Z.of_nat total).
Proof.
  intros Hc Hf.
  rewrite (readPacket_header _ _ _ _ _ (ca_header _ _ _ Hc)). simpl.
  unfold bytearray.
  replace (Z.of_nat total <? 0) with false by (symmetry; apply Z.ltb_ge; lia).
  simpl. rewrite Nat2Z.id.
  change (Z.to_nat end_of_meta) with 128%nat.
  rewrite (ca_payload _ _ _ Hc), (carries_cur_len _ _ _ Hc).
  destruct c as [off p]. rewrite write_payload_place by (by rewrite length_replicate).
  simpl. unfold reports. by destruct cb.
Qed.

Lemma volume_pos (cs : list chunk) :
  cs ≠ [] → Forall (λ c : chunk, c.2 ≠ []) cs → (0 < volume cs)%nat.
Proof.
  destruct cs as [|c cs]; [done|]. intros _ Hne.
  apply Forall_cons in Hne as [Hc _]. unfold volume. simpl.
  destruct (c.2); [done|]. simpl. lia.
Qed.

(** The loop on the packets of a transfer under way: it ends with the
    last of them. *)
Lemma read_loop_chunks cb total : ∀ inps cs st,
  Forall2 (carries total) inps cs →
  cs ≠ [] →
  Forall (fits total) cs →
  Forall (λ c : chunk, c.2 ≠ []) cs →
  samples_total st = Z.of_nat total →
  length (samples_data st) = total →
  samples_got st + Z.of_nat (volume cs) = Z.of_nat total →
  read_loop cb st (map Response inps) =
    Completed {| samples_total := Z.of_nat total;
                 samples_data := foldl place (samples_data st) cs;
                 samples_got := Z.of_nat total;
                 meta := meta st;
                 progress := progress st ++ reports cb total (samples_got st) cs |}.
Proof.
  intros inps cs st H. revert st.
  induction H as [|inp c inps cs Hc Hcs IH]; intros st Hne Hfit Hpay Ht Hlen Hvol; [done|].
  apply Forall_cons in Hfit as [Hfc Hfit]. apply Forall_cons in Hpay as [Hpc Hpay].
  simpl. rewrite (readPacket_next cb st total inp c) by done. simpl.
  unfold volume in Hvol. simpl in Hvol. fold (volume cs) in Hvol.
  destruct cs as [|c' cs].
  - unfold volume in Hvol. simpl in Hvol.
    replace (samples_got st + Z.of_nat (length c.2)) with (Z.of_nat total) by lia.
    by rewrite Z.eqb_refl.
  - pose proof (volume_pos (c' :: cs) ltac:(done) Hpay) as Hpos.
    replace (samples_got st + Z.of_nat (length c.2) =? Z.of_nat total) with false
      by (symmetry; apply Z.eqb_neq; lia).
    rewrite IH; simpl; [| done | done | done | done | | lia].
    2:{ rewrite length_place; rewrite Hlen; done. }
    rewrite <- app_assoc. unfold reports. by destruct cb.
Qed.

(** The buffer after the chunks of a tiling have been written in any
    order is the concatenation of the payloads in offset order. *)
Lemma foldl_place_tiling (cs sorted : list chunk) (total : nat) (data : bytes) :
  cs ≡ₚ sorted → tiles 0 sorted total → length data = total →
  foldl place data cs = concat (map snd sorted).
Proof.
  intros Hperm Ht Hlen.
  assert (Forall (fits (length data)) cs) as Hfit.
  { rewrite Hperm. eapply Forall_impl; [by apply (tiles_within _ _ _ Ht)|].
    unfold fits. simpl. intros c ?. lia. }
  rewrite <- (tiles_concat sorted 0 total (foldl place data cs) Ht).
  - rewrite Nat.sub_0_r, drop_0, take_ge; [done|].
    rewrite length_foldl_place by done. lia.
  - intros c j Hc Hj. apply lookup_foldl_place_inside; [done| | |by rewrite Hperm|done].
    + rewrite Hperm. by eapply tiles_NoDup.
    + intros a b i Ha Hb. rewrite Hperm in Ha, Hb. by eapply tiles_apart.
  - rewrite length_foldl_place by done. lia.
Qed.

(** The packets of a transfer of [total] samples arrive in the order
    [cs]; in offset order they are [sorted] and cover the buffer. *)
Lemma read_loop_transfer cb total inps cs sorted :
  Forall2 (carries total) inps cs →
  cs ≡ₚ sorted → tiles 0 sorted total → cs ≠ [] →
  read_loop cb reader_init (map Response inps) =
    Completed {| samples_total := Z.of_nat total;
                 samples_data := concat (map snd sorted);
                 samples_got := Z.of_nat total;
                 meta := py_slice (default [] (head inps)) 29 128;
                 progress := reports cb total 0 cs |}.
Proof.
  intros Hall Hperm Ht Hne.
  assert (Forall (λ c : chunk, fits total c ∧ c.2 ≠ []) cs) as Hw.
  { rewrite Hperm. eapply Forall_impl; [by apply (tiles_within _ _ _ Ht)|].
    unfold fits. simpl. intros c (? & ? & ?). split; [lia|done]. }
  apply Forall_and in Hw as [Hfit Hpay].
  assert (volume cs = total) as Hvol.
  { pose proof (tiles_volume _ _ _ Ht) as Hv. unfold volume in *.
    rewrite Hperm. lia. }
  rewrite <- (foldl_place_tiling cs sorted total (replicate total x00) Hperm Ht)
    by apply length_replicate.
  destruct Hall as [|inp c inps cs Hc Hcs]; [done|].
  apply Forall_cons in Hfit as [Hfc Hfit]. apply Forall_cons in Hpay as [Hpc Hpay].
  unfold volume in Hvol. simpl in Hvol. fold (volume cs) in Hvol.
  simpl. rewrite (readPacket_first cb total inp c) by done. simpl.
  destruct cs as [|c' cs].
  - unfold volume in Hvol. simpl in Hvol.
    replace (length c.2) with total by lia.
    by rewrite Z.eqb_refl.
  - pose proof (volume_pos (c' :: cs) ltac:(done) Hpay) as Hpos.
    replace (Z.of_nat (length c.2) =? Z.of_nat total) with false
      by (symmetry; apply Z.eqb_neq; lia).
    rewrite (read_loop_chunks cb total inps (c' :: cs)); simpl;
      [| done | done | done | done | done | | lia].
    2:{ rewrite length_place; rewrite length_replicate; done. }
    unfold reports. by destruct cb.
Qed.

(** ** Responses framed by the instrument *)

Lemma clip_inside (len : nat) (i : nat) : (i ≤ len)%nat → clip len (Z.of_nat i) = i.
Proof.
  intros Hi. unfold clip.
  replace (Z.of_nat i <? 0) with false by (symmetry; apply Z.ltb_ge; lia).
  rewrite Z.min_l by lia. apply Nat2Z.id.
Qed.

Lemma py_slice_nat (l : bytes) (i j : nat) :
  (i ≤ j ≤ length l)%nat →
  py_slice l (Z.of_nat i) (Z.of_nat j) = take (j - i) (drop i l).
Proof. intros [Hi Hj]. unfold py_slice. by rewrite !clip_inside by lia. Qed.

Lemma py_slice_middle (a x b : bytes) (i j : nat) :
  i = length a → j = (length a + length x)%nat →
  py_slice (a ++ x ++ b) (Z.of_nat i) (Z.of_nat j) = x.
Proof.
  intros -> ->. rewrite py_slice_nat by (rewrite !length_app; lia).
  rewrite drop_app_length. replace (length a + length x - length a)%nat with (length x) by lia.
  apply take_app_length.
Qed.

Lemma framed_carries (h1 h2 h3 m p : bytes) (n : Z) (total off : nat) :
  length h1 = 9%nat → length h2 = 9%nat → length h3 = 9%nat → length m = 99%nat →
  int_decode h1 = Ok n → n ≠ 0 →
  int_decode h2 = Ok (Z.of_nat total) →
  int_decode h3 = Ok (Z.of_nat off) →
  carries total ([x23; x39] ++ h1 ++ h2 ++ h3 ++ m ++ p) (off, p).
Proof.
  intros L1 L2 L3 Lm H1 Hn H2 H3. split; [split| |].
  - done.
  - exists n. split; [|done]. transitivity (int_decode h1); [f_equal|done].
    by apply (py_slice_middle [x23; x39] h1 _ 2 11); [|rewrite L1].
  - transitivity (int_decode h2); [f_equal|done]. rewrite (app_assoc [x23; x39] h1).
    apply (py_slice_middle _ h2 _ 11 20); rewrite length_app, L1, ?L2; done.
  - transitivity (int_decode h3); [f_equal|done].
    rewrite (app_assoc [x23; x39] h1), (app_assoc _ h2).
    apply (py_slice_middle _ h3 _ 20 29); rewrite !length_app, L1, L2, ?L3; done.
  - rewrite !length_app, L1, L2, L3, Lm. simpl. lia.
  - cbn [snd].
    rewrite (app_assoc [x23; x39] h1), (app_assoc _ h2), (app_assoc _ h3), (app_assoc _ m).
    apply drop_app_length'. rewrite !length_app, L1, L2, L3, Lm. done.
Qed.

Lemma framed_meta (h1 h2 h3 m p : bytes) :
  length h1 = 9%nat → length h2 = 9%nat → length h3 = 9%nat → length m = 99%nat →
  py_slice ([x23; x39] ++ h1 ++ h2 ++ h3 ++ m ++ p) 29 128 = m.
Proof.
  intros L1 L2 L3 Lm.
  rewrite (app_assoc [x23; x39] h1), (app_assoc _ h2), (app_assoc _ h3).
  apply (py_slice_middle _ m _ 29 128); rewrite !length_app, L1, L2, L3, ?Lm; done.
Qed.

(** ** Reassembly of a transfer *)

(** C3. The packets of a well-formed transfer of [total] samples arrive
    in the order [cs]; put in offset order ([sorted]) their payloads do not
    overlap and cover [[0, total)]. Then the packet loop completes, the
    buffer is the concatenation of the payloads in offset order, the
    metadata region is that of the first packet, and the observer has been
    called after each packet with the count received so far. In
    particular three packets of 2000 bytes at offsets 0, 2000 and 4000 of
    a transfer of 6000 samples give the three payloads one after the
    other and the counts 2000, 4000, 6000. *)
Theorem read_loop_reassembles :
  (∀ (cb : bool) (total : nat) (inps : list bytes) (cs sorted : list chunk),
     Forall2 (carries total) inps cs →
     cs ≡ₚ sorted → tiles 0 sorted total → cs ≠ [] →
     read_loop cb reader_init (map Response inps) =
       Completed {| samples_total := Z.of_nat total;
                    samples_data := concat (map snd sorted);
                    samples_got := Z.of_nat total;
                    meta := py_slice (default [] (head inps)) 29 128;
                    progress := if cb
                                then map (λ g, (g, Z.of_nat total)) (received 0 cs)
                                else [] |}) ∧
  (∀ ma mb mc pa pb pc : bytes,
     length ma = 99%nat → length mb = 99%nat → length mc = 99%nat →
     length pa = 2000%nat → length pb = 2000%nat → length pc = 2000%nat →
     read_loop true reader_init
       [Response (packet 2000 6000 0 ma pa);
        Response (packet 2000 6000 2000 mb pb);
        Response (packet 2000 6000 4000 mc pc)] =
       Completed {| samples_total := 6000;
                    samples_data := pa ++ pb ++ pc;
                    samples_got := 6000;
                    meta := ma;
                    progress := [(2000, 6000); (4000, 6000); (6000, 6000)] |}).
Proof.
  split; [apply read_loop_transfer|].
  intros ma mb mc pa pb pc La Lb Lc Ha Hb Hc.
  pose (cs := [(0%nat, pa); (2000%nat, pb); (4000%nat, pc)] : list chunk).
  change [Response (packet 2000 6000 0 ma pa);
          Response (packet 2000 6000 2000 mb pb);
          Response (packet 2000 6000 4000 mc pc)]
    with (map Response [packet 2000 6000 0 ma pa; packet 2000 6000 2000 mb pb;
                        packet 2000 6000 4000 mc pc]).
  rewrite (read_loop_transfer true (Z.to_nat 6000) _ cs cs); subst cs.
  - unfold reports. cbn [map concat snd head default received fst id].
    rewrite Ha, Hb, Hc, app_nil_r, (Z2Nat.id 6000) by lia.
    unfold packet. rewrite framed_meta by done. reflexivity.
  - rewrite <- (Z2Nat.id 6000) by lia.
    repeat (apply Forall2_cons_2; [apply (framed_carries _ _ _ _ _ 2000)|]);
      first [assumption | lia | apply Forall2_nil_2 | vm_compute; reflexivity].
  - done.
  - cbn [tiles fst snd]. rewrite Ha, Hb, Hc.
    split_and!; try done; try (intros ->; discriminate); lia.
  - done.
Qed.

Lemma read_loop_reassembles_witness :
  (Forall2 (carries 6) swapped_inps swapped ∧ swapped ≡ₚ in_order ∧
   tiles 0 in_order 6 ∧ swapped ≠ []) ∧
  read_loop true reader_init (map Response swapped_inps) =
    Completed {| samples_total := 6;
                 samples_data := [x01; x02; x03; x04; x05; x06];
                 samples_got := 6;
                 meta := m0;
                 progress := [(2, 6); (4, 6); (6, 6)] |}.
Proof.
  assert (Forall2 (carries 6) swapped_inps swapped) as H1.
  { repeat (apply Forall2_cons_2; [apply (framed_carries _ _ _ _ _ 2)|]);
      first [lia | apply Forall2_nil_2 | vm_compute; reflexivity]. }
  assert (swapped ≡ₚ in_order) as H2.
  { apply perm_skip, perm_swap. }
  assert (tiles 0 in_order 6) as H3.
  { simpl. split_and!; done. }
  assert (swapped ≠ []) as H4 by done.
  split; [done|].
  apply (proj1 read_loop_reassembles true 6%nat swapped_inps swapped in_order H1 H2 H3 H4).
Defined.

(** ** Responses that are turned down: marker, zero length, mismatch *)

Lemma replicate_Response (n : nat) (inp : bytes) :
  replicate n (Response inp) = map Response (replicate n inp).
Proof. induction n as [|n IH]; simpl; by rewrite ?IH. Qed.

(** C8, as the code has it. A response whose first two bytes are not
    ['#'] and ['9'] does not fail the read: [readPacket] returns [False]
    with the reassembly state untouched and the loop reads the next
    response, for as long as such responses arrive. *)
Theorem bad_marker_read_again (cb : bool) (st : reader) (inp : bytes) (rest : list delivery) :
  bad_marker inp →
  readPacket cb st inp = Ok (st, false) ∧
  read_loop cb st (Response inp :: rest) = read_loop cb st rest ∧
  ∀ n, read_loop cb st (replicate n (Response inp)) = Reading st.
Proof.
  intros Hbad. pose proof (readPacket_bad_marker cb st inp Hbad) as Hd.
  split_and!; [done | simpl; by rewrite Hd |].
  intros n. rewrite replicate_Response.
  apply read_loop_dropped_reading, Forall_replicate, Hd.
Qed.

Lemma bad_marker_read_again_witness :
  bad_marker stray ∧
  readPacket true reader_init stray = Ok (reader_init, false) ∧
  read_loop true reader_init [Response stray; Response one_packet] =
    read_loop true reader_init [Response one_packet] ∧
  ∀ n, read_loop true reader_init (replicate n (Response stray)) = Reading reader_init.
Proof.
  assert (bad_marker stray) as H.
  { left. exists x45. split; [reflexivity | discriminate]. }
  split; [exact H|].
  apply (bad_marker_read_again true reader_init stray [Response one_packet] H).
Defined.

(** C8 as stated fails: after a response without the marker the read is
    retried, and the transfer completes with the next packet. *)
Lemma bad_marker_not_a_failure :
  readPacket true reader_init stray = Ok (reader_init, false) ∧
  read_loop true reader_init [Response stray; Response one_packet] =
    Completed {| samples_total := 2; samples_data := [x01; x02]; samples_got := 2;
                 meta := m0; progress := [(2, 2)] |}.
Proof. split; vm_compute; reflexivity. Qed.

(** C2, as the code has it. Responses that declare a chunk length of
    zero are turned down one after the other with the reassembly state
    untouched; the loop goes on with whatever is delivered next, and is
    still reading when nothing else is: no count of attempts bounds it. *)
Theorem zero_length_read_again (cb : bool) (st : reader) (inps : list bytes)
    (rest : list delivery) :
  Forall zero_length inps →
  Forall (λ inp, readPacket cb st inp = Ok (st, false)) inps ∧
  read_loop cb st (map Response inps ++ rest) = read_loop cb st rest ∧
  read_loop cb st (map Response inps) = Reading st.
Proof.
  intros Hz.
  assert (Forall (dropped cb st) inps) as Hd.
  { eapply Forall_impl; [exact Hz|]. apply readPacket_zero_length. }
  split_and!; [exact Hd | by apply read_loop_dropped | by apply read_loop_dropped_reading].
Qed.

Lemma no_chunk_yet_zero_length : zero_length no_chunk_yet.
Proof. split; [split|]; vm_compute; reflexivity. Qed.

Lemma zero_length_read_again_witness :
  Forall zero_length (replicate 3 no_chunk_yet) ∧
  Forall (λ inp, readPacket true reader_init inp = Ok (reader_init, false))
    (replicate 3 no_chunk_yet) ∧
  read_loop true reader_init (map Response (replicate 3 no_chunk_yet) ++ [Failure 7]) =
    read_loop true reader_init [Failure 7] ∧
  read_loop true reader_init (map Response (replicate 3 no_chunk_yet)) = Reading reader_init.
Proof.
  assert (Forall zero_length (replicate 3 no_chunk_yet)) as H.
  { apply Forall_replicate, no_chunk_yet_zero_length. }
  split; [exact H|].
  apply (zero_length_read_again true reader_init (replicate 3 no_chunk_yet) [Failure 7] H).
Defined.

(** C2 as stated fails: no budget of attempts exists after which the loop
    has ended with an error on responses of zero length; after any number
    of them it is reading again. *)
Lemma zero_length_unbounded :
  ¬ ∃ budget : nat, ∀ n : nat, (budget ≤ n)%nat →
      ∃ e, read_loop true reader_init (replicate n (Response no_chunk_yet)) = Raised e.
Proof.
  intros (budget & Hb). destruct (Hb budget (le_n _)) as [e He].
  rewrite replicate_Response in He.
  rewrite read_loop_dropped_reading in He; [discriminate|].
  apply Forall_replicate, readPacket_zero_length, no_chunk_yet_zero_length.
Qed.

(** C1, as the code has it. While a transfer is under way, a data packet
    that declares another [total_samples] is turned down: [readPacket]
    returns [False], nothing of the packet reaches the buffer, the count,
    the metadata and the observer are untouched, and the loop reads the
    next response. *)
Theorem mismatch_read_again (cb : bool) (st : reader) (inp : bytes)
    (total_smpls cur_pos : Z) (rest : list delivery) :
  samples_total st ≠ -1 →
  header inp total_smpls cur_pos →
  total_smpls ≠ samples_total st →
  readPacket cb st inp = Ok (st, false) ∧
  read_loop cb st (Response inp :: rest) = read_loop cb st rest.
Proof.
  intros Hin Hh Hne.
  assert (dropped cb st inp) as Hd by (eapply readPacket_mismatch; eauto).
  split; [exact Hd|]. simpl. by rewrite Hd.
Qed.

Lemma mismatch_read_again_witness :
  (samples_total under_way ≠ -1 ∧
   header (packet 2 5 2 m0 [x02; xfe]) 5 2 ∧
   5 ≠ samples_total under_way) ∧
  readPacket true under_way (packet 2 5 2 m0 [x02; xfe]) = Ok (under_way, false) ∧
  read_loop true under_way [Response (packet 2 5 2 m0 [x02; xfe])] =
    read_loop true under_way [].
Proof.
  assert (samples_total under_way ≠ -1) as H1 by (simpl; lia).
  assert (header (packet 2 5 2 m0 [x02; xfe]) 5 2) as H2.
  { split; [split; reflexivity | exists 2; split; [vm_compute; reflexivity | lia]
           | vm_compute; reflexivity | vm_compute; reflexivity]. }
  assert (5 ≠ samples_total under_way) as H3 by (simpl; lia).
  split; [done|].
  apply (mismatch_read_again true under_way _ 5 2 [] H1 H2 H3).
Defined.

(** C1 as stated fails: a second packet that declares 6001 samples where
    the first declared 6000 is passed over, and the transfer completes with
    the packet after it. *)
Lemma mismatch_not_a_failure :
  read_loop true reader_init
    [Response (packet 2000 6000 0 m0 (replicate 2000 x01));
     Response (packet 2000 6001 2000 m0 (replicate 2000 x02));
     Response (packet 4000 6000 2000 m0 (replicate 4000 x03))] =
    Completed {| samples_total := 6000;
                 samples_data := replicate 2000 x01 ++ replicate 4000 x03;
                 samples_got := 6000; meta := m0;
                 progress := [(2000, 6000); (6000, 6000)] |}.
Proof. vm_compute. reflexivity. Qed.

(** ** Metadata *)

Lemma py_slice_part (l : bytes) (i k x y : Z) :
  0 ≤ i ≤ x → x ≤ y ≤ k → k ≤ Z.of_nat (length l) →
  py_slice l x y = take (Z.to_nat (y - x)) (drop (Z.to_nat (x - i)) (py_slice l i k)).
Proof.
  intros Hi Hy Hk.
  rewrite <- (Z2Nat.id i), <- (Z2Nat.id k), <- (Z2Nat.id x), <- (Z2Nat.id y) by lia.
  rewrite !py_slice_nat by lia. rewrite !Z2Nat.id by lia.
  replace (Z.to_nat k - Z.to_nat i)%nat
    with (Z.to_nat (x - i) + (Z.to_nat k - Z.to_nat x))%nat by lia.
  rewrite <- take_drop_commute, take_take, drop_drop.
  f_equal; [lia | f_equal; lia].
Qed.

Lemma unpack_meta_fields (m : bytes) :
  length m = 99%nat →
  ∃ f, unpack_meta m = Ok f ∧
       c1e f = py_slice m 46 47 ∧ c2e f = py_slice m 47 48 ∧
       c3e f = py_slice m 48 49 ∧ c4e f = py_slice m 49 50 ∧
       sampling_rate f = py_slice m 50 59 ∧ trigger_time f = py_slice m 74 83.
Proof.
  intros Hlen. unfold unpack_meta. rewrite Hlen. simpl.
  eexists. split; [reflexivity|]. simpl. done.
Qed.

(** *** Text of ASCII characters

    On bytes below 128, decoding changes nothing: [int] and [float] of
    the decoded text are [int] and [float] of the bytes. *)

Lemma byte_of_Z_ord (b : byte) : byte_of_Z (ord b) = b.
Proof. by destruct b. Qed.

Lemma ascii_or_high (s : bytes) : ascii s ∨ high s.
Proof.
  induction s as [|b s [IH|(x & Hx & Hh)]].
  - left. constructor.
  - destruct (Z.lt_ge_cases (ord b) 128) as [Hb|Hb].
    + left. by constructor.
    + right. exists b. split; [left | done].
  - right. exists x. split; [by right | done].
Qed.

Lemma decode_ascii (s : bytes) : ascii s → decode s = Ok (map ord s).
Proof.
  induction 1 as [|b s Hb _ IH]; [done|].
  cbn [decode map]. rewrite (proj2 (Z.ltb_lt _ _) Hb), IH. done.
Qed.

Lemma ascii_of_str_ascii (s : bytes) : ascii s → ascii_of_str (map ord s) = s.
Proof.
  intros Hs. unfold ascii_of_str.
  replace (forallb (λ c, c <? 128) (map ord s)) with true.
  - rewrite map_map. rewrite <- (map_id s) at 2.
    apply map_ext. intros b. apply byte_of_Z_ord.
  - symmetry. apply forallb_forall. intros c Hc.
    apply (proj1 (in_map_iff _ _ _)) in Hc as (b & <- & Hb).
    apply Z.ltb_lt. unfold ascii in Hs. rewrite Forall_forall in Hs.
    apply Hs, list_elem_of_In, Hb.
Qed.

Lemma int_decode_ascii (s : bytes) : ascii s → int_decode s = int_bytes s.
Proof.
  intros Hs. unfold int_decode, int_str. rewrite (decode_ascii s Hs). simpl.
  by rewrite ascii_of_str_ascii.
Qed.

Lemma float_decode_ascii (s : bytes) : ascii s → float_decode s = float_bytes s.
Proof.
  intros Hs. unfold float_decode, float_str. rewrite (decode_ascii s Hs). simpl.
  by rewrite ascii_of_str_ascii.
Qed.

(** *** Bytes of 128 and more

    [float] of a [bytes] object that holds such a byte raises: the byte is
    no white space, no sign, no digit, no underscore, no point and no
    letter, so that it stays in what the numeral leaves unread. *)

Lemma lstrip_keeps {A : Type} (sp : A → bool) (s : list A) (x : A) :
  x ∈ s → sp x = false → x ∈ lstrip sp s.
Proof.
  intros Hx Hsp. induction s as [|b r IH]; [done|].
  simpl. destruct (sp b) eqn:Eb; [|done].
  apply elem_of_cons in Hx as [-> | Hx]; [congruence | by apply IH].
Qed.

Lemma strip_keeps {A : Type} (sp : A → bool) (s : list A) (x : A) :
  x ∈ s → sp x = false → x ∈ strip sp s.
Proof.
  intros Hx Hsp. unfold strip.
  apply elem_of_reverse, lstrip_keeps; [|done].
  apply elem_of_reverse, lstrip_keeps; done.
Qed.

Lemma high_byte_facts (x : byte) :
  128 ≤ ord x →
  bytes_space x = false ∧ digit_val x = None ∧ lower_ord x = ord x ∧
  x ≠ x2d ∧ x ≠ x2b ∧ x ≠ x5f ∧ x ≠ x2e.
Proof.
  intros Hx. unfold bytes_space, digit_val, lower_ord.
  repeat match goal with
         | |- context [?a <=? ?b] => destruct (Z.leb_spec a b)
         | |- context [?a =? ?b] => destruct (Z.eqb_spec a b)
         end; simpl; try lia.
  split_and!; try done; intros ->; vm_compute in Hx; by apply Hx.
Qed.

Lemma take_sign_keeps (s s1 : bytes) (neg : bool) (x : byte) :
  take_sign s = (neg, s1) → x ∈ s → 128 ≤ ord x → x ∈ s1.
Proof.
  intros E Hx Hh. destruct (high_byte_facts x Hh) as (_ & _ & _ & Hm & Hp & _).
  destruct s as [|b r]; [by apply elem_of_nil in Hx|].
  simpl in E.
  destruct (Byte.eqb b x2d) eqn:Em.
  { apply Byte.byte_dec_bl in Em as ->. simplify_eq.
    apply elem_of_cons in Hx as [-> | Hx]; done. }
  destruct (Byte.eqb b x2b) eqn:Ep.
  { apply Byte.byte_dec_bl in Ep as ->. simplify_eq.
    apply elem_of_cons in Hx as [-> | Hx]; done. }
  by simplify_eq.
Qed.

Lemma scan_digitpart_keeps (x : byte) :
  128 ≤ ord x →
  ∀ (n : nat) (s : bytes) (ds : list Z) (rest : bytes),
    (length s ≤ n)%nat → scan_digitpart s = (ds, rest) → x ∈ s → x ∈ rest.
Proof.
  intros Hh. destruct (high_byte_facts x Hh) as (_ & Hdv & _ & _ & _ & Hu & _).
  induction n as [|n IH]; intros s ds rest Hlen E Hx.
  { destruct s; [by apply elem_of_nil in Hx | simpl in Hlen; lia]. }
  destruct s as [|b r]; [by apply elem_of_nil in Hx|].
  cbn [scan_digitpart] in E.
  destruct (digit_val b) as [d|] eqn:Ed; [|by simplify_eq].
  assert (x ∈ r) as Hr.
  { apply elem_of_cons in Hx as [-> | Hx]; [congruence | done]. }
  destruct r as [|u r']; [by apply elem_of_nil in Hr|].
  simpl in Hlen.
  destruct (Byte.eqb u x5f) eqn:Eu.
  - apply Byte.byte_dec_bl in Eu as ->.
    assert (x ∈ r') as Hr'.
    { apply elem_of_cons in Hr as [-> | Hr]; done. }
    destruct r' as [|b2 r'']; [by apply elem_of_nil in Hr'|].
    destruct (is_digit b2); [|by simplify_eq].
    destruct (scan_digitpart (b2 :: r'')) as [ds' rest'] eqn:E'.
    simplify_eq. apply (IH (b2 :: r'') ds' rest); [simpl in *; lia | done | done].
  - destruct (scan_digitpart (u :: r')) as [ds' rest'] eqn:E'.
    simplify_eq. apply (IH (u :: r') ds' rest); [simpl; lia | done | done].
Qed.

Lemma scan_exponent_keeps (s rest : bytes) (ex : Z) (x : byte) :
  scan_exponent s = Some (ex, rest) → x ∈ s → 128 ≤ ord x → x ∈ rest.
Proof.
  intros E Hx Hh. destruct (high_byte_facts x Hh) as (_ & _ & Hlo & _).
  destruct s as [|b r]; [by apply elem_of_nil in Hx|].
  cbn [scan_exponent] in E.
  destruct (lower_ord b =? 101) eqn:Eb; [|by simplify_eq].
  apply Z.eqb_eq in Eb.
  assert (x ∈ r) as Hr.
  { apply elem_of_cons in Hx as [-> | Hx]; [lia | done]. }
  destruct (take_sign r) as [neg r1] eqn:Es.
  destruct (scan_digitpart r1) as [ds rest'] eqn:Ed.
  destruct ds; [done|]. simplify_eq.
  eapply (scan_digitpart_keeps x Hh); [reflexivity | exact Ed |].
  by eapply take_sign_keeps.
Qed.

Lemma is_word_low (w : string) (s : bytes) (x : byte) :
  Forall (λ c, c < 128) (map ord (list_byte_of_string w)) →
  x ∈ s → 128 ≤ ord x → is_word w s = false.
Proof.
  intros Hw Hx Hh. destruct (high_byte_facts x Hh) as (_ & _ & Hlo & _).
  unfold is_word. apply bool_decide_eq_false. intros Heq.
  rewrite <- Heq in Hw. rewrite Forall_fmap, Forall_forall in Hw.
  specialize (Hw x Hx). simpl in Hw. lia.
Qed.

Lemma float_bytes_high (s : bytes) : high s → float_bytes s = Raise ValueError.
Proof.
  intros (x & Hx & Hh).
  destruct (high_byte_facts x Hh) as (Hsp & _ & _ & _ & _ & _ & Hdot).
  unfold float_bytes.
  destruct (take_sign (strip bytes_space s)) as [neg s1] eqn:Es.
  assert (x ∈ s1) as H1.
  { eapply take_sign_keeps; [exact Es | by apply strip_keeps | done]. }
  rewrite !(is_word_low _ s1 x) by (done || (vm_compute; repeat constructor)).
  simpl.
  destruct (scan_digitpart s1) as [ip r1] eqn:E1.
  assert (x ∈ r1) as Hr1 by (by eapply (scan_digitpart_keeps x Hh)).
  assert (∀ (fp : list Z) (r2 : bytes) (wf : bool) (v : Z → float),
            x ∈ r2 →
            match scan_exponent r2 with
            | Some (ex, []) => if wf then Ok (v ex) else Raise ValueError
            | _ => Raise ValueError
            end = Raise ValueError) as Hend.
  { intros fp r2 wf v Hr2.
    destruct (scan_exponent r2) as [[ex rest]|] eqn:E3; [|done].
    pose proof (scan_exponent_keeps _ _ _ x E3 Hr2 Hh) as Hrest.
    destruct rest; [by apply elem_of_nil in Hrest | done]. }
  destruct r1 as [|b r]; [by apply elem_of_nil in Hr1|].
  destruct (Byte.eqb b x2e) eqn:Eb.
  - apply Byte.byte_dec_bl in Eb as ->.
    assert (x ∈ r) as Hr.
    { apply elem_of_cons in Hr1 as [-> | Hr1]; done. }
    destruct (scan_digitpart r) as [fp r2] eqn:E2.
    apply (Hend fp r2 _ (λ ex, float_of_decimal neg (decimal (ip ++ fp))
                                 (ex - Z.of_nat (length fp)))).
    by eapply (scan_digitpart_keeps x Hh).
  - apply (Hend [] (b :: r) _ (λ ex, float_of_decimal neg (decimal (ip ++ []))
                                       (ex - Z.of_nat (length (@nil Z))))).
    done.
Qed.

Lemma float_bytes_raises (s : bytes) (e : exn) : float_bytes s = Raise e → e = ValueError.
Proof.
  unfold float_bytes.
  destruct (take_sign (strip bytes_space s)) as [neg s1].
  destruct (is_word "inf" s1 || is_word "infinity" s1); [done|].
  destruct (is_word "nan" s1); [done|].
  destruct (scan_digitpart s1) as [ip r1].
  destruct (match r1 with
            | b :: r =>
                if Byte.eqb b x2e
                then let '(fp, r2) := scan_digitpart r in (fp, r2, true)
                else ([], r1, false)
            | [] => ([], [], false)
            end) as [[fp r2] dot].
  destruct (scan_exponent r2) as [[ex [|? ?]]|]; [|congruence..].
  destruct (match ip, fp with [], [] => false | _, _ => true end); congruence.
Qed.

(** The second attempt [float(sampling_rate)] never succeeds where the
    first failed: what reaches the outer handler is its [ValueError]. *)
Lemma sampling_rate_second_attempt (field : bytes) (e : exn) :
  float_decode field = Raise e → decode_sampling_rate field = Raise ValueError.
Proof.
  intros H. unfold decode_sampling_rate. rewrite H.
  destruct (ascii_or_high field) as [Ha|Hh].
  - rewrite (float_decode_ascii field Ha) in H.
    rewrite H. f_equal. by eapply float_bytes_raises.
  - by apply float_bytes_high.
Qed.

Lemma int_bytes_raises (s : bytes) (e : exn) : int_bytes s = Raise e → e = ValueError.
Proof.
  unfold int_bytes.
  destruct (take_sign (strip bytes_space s)) as [neg s1].
  destruct (scan_digitpart s1) as [[|? ?] [|? ?]]; congruence.
Qed.

(** *** Text that is not plain digits

    What the runtime does with control characters, with spaces and digits
    of other scripts, and with bytes that are no UTF-8: the separators
    [0x1c] to [0x1f] are white space for [str.strip()] and not for [int]
    and [float]. *)

Lemma text_examples :
  int_decode (B"00000002" ++ [x1c]) = Raise ValueError ∧
  int_decode (B" 0000002" ++ [x0a]) = Ok 2 ∧
  float_decode (B"1.00E+08" ++ [x1f]) = Raise ValueError ∧
  float_str (text "0.5" ++ [28]) = Raise ValueError ∧
  float_str (text "0.5" ++ [10]) = Ok 0.5%float ∧
  decode [xd9; xa1; xd9; xa2] = Ok [1633; 1634] ∧
  int_decode [xd9; xa1; xd9; xa2] = Ok 12 ∧
  int_bytes [xd9; xa1; xd9; xa2] = Raise ValueError ∧
  decode ([xc2; xa0] ++ B"1.0E-03") = Ok (160 :: text "1.0E-03") ∧
  parse_trigger_time ([xc2; xa0] ++ B"1.0E-03") = Ok 0.001%float ∧
  parse_trigger_time ([x1c] ++ B"1.0E-03" ++ [x1f]) = Ok 0.001%float ∧
  float_decode ([x1c] ++ B"1.0E-03" ++ [x1f]) = Raise ValueError ∧
  decode [xc0; x80] = Raise UnicodeDecodeError ∧
  decode [xed; xa0; x80] = Raise UnicodeDecodeError ∧
  decode [xf4; x90; x80; x80] = Raise UnicodeDecodeError ∧
  decode [xe2; x82] = Raise UnicodeDecodeError ∧
  float_decode [xff] = Raise UnicodeDecodeError ∧
  decode_sampling_rate [xff] = Raise ValueError.
Proof. split_and!; vm_compute; reflexivity. Qed.

(** *** Digits *)

Lemma int_bytes_single (b : byte) :
  int_bytes [b] = match digit_val b with Some d => Ok d | None => Raise ValueError end.
Proof. destruct b; vm_compute; reflexivity. Qed.

Lemma digit_val_range (b : byte) (d : Z) : digit_val b = Some d → 0 ≤ d ≤ 9.
Proof.
  unfold digit_val.
  destruct (Z.leb_spec 48 (ord b)), (Z.leb_spec (ord b) 57); simpl; intros [= <-]; lia.
Qed.

Lemma digit_byte_facts (d : Z) :
  0 ≤ d ≤ 9 →
  let b := byte_of_Z (48 + d) in
  digit_val b = Some d ∧ (ord b <? 128) = true ∧ bytes_space b = false ∧
  Byte.eqb b x5f = false ∧ Byte.eqb b x2d = false ∧ Byte.eqb b x2b = false.
Proof.
  intros Hd.
  assert (d = 0 ∨ d = 1 ∨ d = 2 ∨ d = 3 ∨ d = 4 ∨ d = 5 ∨ d = 6 ∨ d = 7 ∨ d = 8 ∨ d = 9)
    as Hc by lia.
  repeat (destruct Hc as [-> | Hc]; [by vm_compute|]). subst d. by vm_compute.
Qed.

Lemma flag_digits (m : bytes) (d1 d2 d3 d4 : Z) :
  length m = 99%nat →
  py_slice m 46 50 = digit_bytes [d1; d2; d3; d4] →
  Forall (λ d, 0 ≤ d ≤ 9) [d1; d2; d3; d4] →
  int_bytes (py_slice m 46 47) = Ok d1 ∧ int_bytes (py_slice m 47 48) = Ok d2 ∧
  int_bytes (py_slice m 48 49) = Ok d3 ∧ int_bytes (py_slice m 49 50) = Ok d4.
Proof.
  intros Hlen Hflags Hds.
  rewrite (py_slice_part m 46 50 46 47), (py_slice_part m 46 50 47 48),
    (py_slice_part m 46 50 48 49), (py_slice_part m 46 50 49 50) by lia.
  rewrite Hflags.
  apply Forall_cons in Hds as [H1 Hds]. apply Forall_cons in Hds as [H2 Hds].
  apply Forall_cons in Hds as [H3 Hds]. apply Forall_cons in Hds as [H4 _].
  split_and!.
  - change (int_bytes [byte_of_Z (48 + d1)] = Ok d1).
    by rewrite int_bytes_single, (proj1 (digit_byte_facts d1 H1)).
  - change (int_bytes [byte_of_Z (48 + d2)] = Ok d2).
    by rewrite int_bytes_single, (proj1 (digit_byte_facts d2 H2)).
  - change (int_bytes [byte_of_Z (48 + d3)] = Ok d3).
    by rewrite int_bytes_single, (proj1 (digit_byte_facts d3 H3)).
  - change (int_bytes [byte_of_Z (48 + d4)] = Ok d4).
    by rewrite int_bytes_single, (proj1 (digit_byte_facts d4 H4)).
Qed.

Lemma decode_meta_fields (m : bytes) (n1 n2 n3 n4 : Z) :
  length m = 99%nat →
  int_bytes (py_slice m 46 47) = Ok n1 → int_bytes (py_slice m 47 48) = Ok n2 →
  int_bytes (py_slice m 48 49) = Ok n3 → int_bytes (py_slice m 49 50) = Ok n4 →
  decode_meta m =
    rate ← decode_sampling_rate (py_slice m 50 59);
    Ok {| channel_count := n1 + n2 + n3 + n4; sr := rate;
          tt := decode_trigger_time (py_slice m 74 83) |}.
Proof.
  intros Hlen H1 H2 H3 H4.
  destruct (unpack_meta_fields m Hlen) as (f & Hf & E1 & E2 & E3 & E4 & Er & Et).
  unfold decode_meta. rewrite Hf. simpl.
  rewrite E1, E2, E3, E4, Er, Et, H1, H2, H3, H4. done.
Qed.

(** C9, as the code has it. In a 99-byte metadata region whose four
    channel flag bytes are ASCII digits and whose sampling rate field
    parses as a number, decoding yields that number as the sampling rate
    and the sum of the four digits as the enabled channel count. In
    particular, when the sampling rate field is the text [1.000E+08] and
    each flag is ['1'] when set and ['0'] when not, with exactly two set,
    the sampling rate is [1e8] and the enabled channel count is 2. *)
Theorem decode_meta_exact (m : bytes) :
  length m = 99%nat →
  (∀ (d1 d2 d3 d4 : Z) (rate : float),
     py_slice m 46 50 = digit_bytes [d1; d2; d3; d4] →
     Forall (λ d, 0 ≤ d ≤ 9) [d1; d2; d3; d4] →
     float_decode (py_slice m 50 59) = Ok rate →
     decode_meta m =
       Ok {| channel_count := d1 + d2 + d3 + d4; sr := rate;
             tt := decode_trigger_time (py_slice m 74 83) |}) ∧
  (∀ f1 f2 f3 f4 : bool,
     py_slice m 46 50 = map flag_byte [f1; f2; f3; f4] →
     length (filter Is_true [f1; f2; f3; f4]) = 2%nat →
     py_slice m 50 59 = B"1.000E+08" →
     decode_meta m =
       Ok {| channel_count := 2; sr := 100000000%float;
             tt := decode_trigger_time (py_slice m 74 83) |}).
Proof.
  intros Hlen.
  assert (∀ (d1 d2 d3 d4 : Z) (rate : float),
     py_slice m 46 50 = digit_bytes [d1; d2; d3; d4] →
     Forall (λ d, 0 ≤ d ≤ 9) [d1; d2; d3; d4] →
     float_decode (py_slice m 50 59) = Ok rate →
     decode_meta m =
       Ok {| channel_count := d1 + d2 + d3 + d4; sr := rate;
             tt := decode_trigger_time (py_slice m 74 83) |}) as Hgen.
  { intros d1 d2 d3 d4 rate Hflags Hds Hrate.
    destruct (flag_digits m d1 d2 d3 d4 Hlen Hflags Hds) as (H1 & H2 & H3 & H4).
    rewrite (decode_meta_fields m d1 d2 d3 d4) by done.
    unfold decode_sampling_rate. by rewrite Hrate. }
  split; [exact Hgen|].
  intros f1 f2 f3 f4 Hflags Hcount Hrate.
  rewrite (Hgen (if f1 then 1 else 0) (if f2 then 1 else 0)
                (if f3 then 1 else 0) (if f4 then 1 else 0) 100000000%float).
  - do 2 f_equal.
    destruct f1, f2, f3, f4; simpl in Hcount; try discriminate; reflexivity.
  - rewrite Hflags. by destruct f1, f2, f3, f4.
  - repeat apply Forall_cons_2; [by destruct f1 | by destruct f2 | by destruct f3
                                 | by destruct f4 | apply Forall_nil_2].
  - rewrite Hrate. vm_compute. reflexivity.
Qed.

Lemma decode_meta_exact_witness :
  (length m_sum_flags = 99%nat ∧
   py_slice m_sum_flags 46 50 = digit_bytes [1; 2; 0; 0] ∧
   Forall (λ d, 0 ≤ d ≤ 9) [1; 2; 0; 0] ∧
   float_decode (py_slice m_sum_flags 50 59) = Ok 250000%float) ∧
  decode_meta m_sum_flags =
    Ok {| channel_count := 1 + 2 + 0 + 0; sr := 250000%float;
          tt := decode_trigger_time (py_slice m_sum_flags 74 83) |} ∧
  (length m0 = 99%nat ∧
   py_slice m0 46 50 = map flag_byte [true; true; false; false] ∧
   length (filter Is_true [true; true; false; false]) = 2%nat ∧
   py_slice m0 50 59 = B"1.000E+08") ∧
  decode_meta m0 =
    Ok {| channel_count := 2; sr := 100000000%float;
          tt := decode_trigger_time (py_slice m0 74 83) |}.
Proof.
  assert (length m_sum_flags = 99%nat) as L1 by reflexivity.
  assert (py_slice m_sum_flags 46 50 = digit_bytes [1; 2; 0; 0]) as F1 by reflexivity.
  assert (Forall (λ d, 0 ≤ d ≤ 9) [1; 2; 0; 0]) as D1 by (repeat constructor; lia).
  assert (float_decode (py_slice m_sum_flags 50 59) = Ok 250000%float) as R1
    by (vm_compute; reflexivity).
  assert (length m0 = 99%nat) as L2 by reflexivity.
  assert (py_slice m0 46 50 = map flag_byte [true; true; false; false]) as F2
    by reflexivity.
  assert (length (filter Is_true [true; true; false; false]) = 2%nat) as C2
    by reflexivity.
  assert (py_slice m0 50 59 = B"1.000E+08") as R2 by reflexivity.
  split; [split_and!; assumption|]. split.
  - exact (proj1 (decode_meta_exact m_sum_flags L1) 1 2 0 0 _ F1 D1 R1).
  - split; [split_and!; assumption|].
    exact (proj2 (decode_meta_exact m0 L2) true true false false F2 C2 R2).
Defined.

(** C9 as stated fails: the flags are not tested for truth but parsed as
    decimal digits and added. With the sampling rate field [1.000E+08]
    and the raw bytes 1, 1, 0, 0 as flags, two of them set, the decoding
    raises; with the digits [1200] as flags the count is 3. *)
Lemma flags_summed_not_counted :
  (length m_raw_flags = 99%nat ∧
   py_slice m_raw_flags 50 59 = B"1.000E+08" ∧
   py_slice m_raw_flags 46 50 = [x01; x01; x00; x00] ∧
   decode_meta m_raw_flags = Raise ValueError) ∧
  (length m_digit_flags = 99%nat ∧
   py_slice m_digit_flags 50 59 = B"1.000E+08" ∧
   py_slice m_digit_flags 46 50 = B"1200" ∧
   decode_meta m_digit_flags =
     Ok {| channel_count := 3; sr := 100000000%float; tt := 0.001%float |}).
Proof. split; split_and!; vm_compute; reflexivity. Qed.

(** C7, as the code has it. In a 99-byte metadata region, a sampling rate
    field that [float(sampling_rate.decode())] does not parse makes the
    decoding raise [ValueError], the second attempt on the bytes failing
    as well, and the fetch of a transfer with that metadata returns
    [None, None]; a trigger time field that does not parse does not stop
    the decoding: when the flags and the sampling rate parse, the region
    decodes to their values with a trigger time of [0.0], where a field
    that parses gives its value. *)
Theorem unparseable_fields (m : bytes) :
  length m = 99%nat →
  (∀ e, float_decode (py_slice m 50 59) = Raise e →
        decode_meta m = Raise ValueError ∧
        ∀ ch cb io st,
          read_loop cb reader_init (deliveries io) = Completed st →
          meta st = m →
          get_waveform ch cb io = Returned None None) ∧
  (∀ n1 n2 n3 n4 rate,
     int_bytes (py_slice m 46 47) = Ok n1 → int_bytes (py_slice m 47 48) = Ok n2 →
     int_bytes (py_slice m 48 49) = Ok n3 → int_bytes (py_slice m 49 50) = Ok n4 →
     float_decode (py_slice m 50 59) = Ok rate →
     (∀ e, parse_trigger_time (py_slice m 74 83) = Raise e →
           decode_meta m =
             Ok {| channel_count := n1 + n2 + n3 + n4; sr := rate; tt := 0%float |}) ∧
     (∀ t, parse_trigger_time (py_slice m 74 83) = Ok t →
           decode_meta m =
             Ok {| channel_count := n1 + n2 + n3 + n4; sr := rate; tt := t |})).
Proof.
  intros Hlen. split.
  - intros e He.
    assert (decode_meta m = Raise ValueError) as Hd.
    { destruct (unpack_meta_fields m Hlen) as (f & Hf & E1 & E2 & E3 & E4 & Er & Et).
      unfold decode_meta. rewrite Hf. simpl.
      rewrite Er, (sampling_rate_second_attempt _ e He).
      destruct (int_bytes (c1e f)) eqn:H1; simpl;
        [|by rewrite (int_bytes_raises _ _ H1)].
      destruct (int_bytes (c2e f)) eqn:H2; simpl;
        [|by rewrite (int_bytes_raises _ _ H2)].
      destruct (int_bytes (c3e f)) eqn:H3; simpl;
        [|by rewrite (int_bytes_raises _ _ H3)].
      destruct (int_bytes (c4e f)) eqn:H4; simpl;
        [|by rewrite (int_bytes_raises _ _ H4)].
      done. }
    split; [exact Hd|].
    intros ch cb io st Hst Hm. unfold get_waveform, after_transfer.
    by rewrite Hst, Hm, Hd.
  - intros n1 n2 n3 n4 rate H1 H2 H3 H4 Hrate.
    rewrite (decode_meta_fields m n1 n2 n3 n4) by done.
    unfold decode_sampling_rate, decode_trigger_time. rewrite Hrate. simpl.
    split; [intros e Ht | intros t Ht]; by rewrite Ht.
Qed.

Lemma unparseable_fields_witness :
  (length m_bad_rate = 99%nat ∧
   float_decode (py_slice m_bad_rate 50 59) = Raise ValueError) ∧
  (decode_meta m_bad_rate = Raise ValueError ∧
   get_waveform 1 true io_bad_rate = Returned None None) ∧
  (length m_bad_time = 99%nat ∧
   int_bytes (py_slice m_bad_time 46 47) = Ok 1 ∧
   int_bytes (py_slice m_bad_time 47 48) = Ok 1 ∧
   int_bytes (py_slice m_bad_time 48 49) = Ok 0 ∧
   int_bytes (py_slice m_bad_time 49 50) = Ok 0 ∧
   float_decode (py_slice m_bad_time 50 59) = Ok 100000000%float ∧
   parse_trigger_time (py_slice m_bad_time 74 83) = Raise ValueError) ∧
  decode_meta m_bad_time =
    Ok {| channel_count := 1 + 1 + 0 + 0; sr := 100000000%float; tt := 0%float |} ∧
  (length m_sum_flags = 99%nat ∧
   int_bytes (py_slice m_sum_flags 46 47) = Ok 1 ∧
   int_bytes (py_slice m_sum_flags 47 48) = Ok 2 ∧
   int_bytes (py_slice m_sum_flags 48 49) = Ok 0 ∧
   int_bytes (py_slice m_sum_flags 49 50) = Ok 0 ∧
   float_decode (py_slice m_sum_flags 50 59) = Ok 250000%float ∧
   parse_trigger_time (py_slice m_sum_flags 74 83) = Ok 0.001%float) ∧
  decode_meta m_sum_flags =
    Ok {| channel_count := 1 + 2 + 0 + 0; sr := 250000%float; tt := 0.001%float |}.
Proof.
  assert (length m_bad_rate = 99%nat) as L1 by reflexivity.
  assert (float_decode (py_slice m_bad_rate 50 59) = Raise ValueError) as H1
    by (vm_compute; reflexivity).
  assert (length m_bad_time = 99%nat) as L2 by reflexivity.
  assert (parse_trigger_time (py_slice m_bad_time 74 83) = Raise ValueError) as H3
    by (vm_compute; reflexivity).
  assert (int_bytes (py_slice m_bad_time 46 47) = Ok 1) as F1 by reflexivity.
  assert (int_bytes (py_slice m_bad_time 47 48) = Ok 1) as F2 by reflexivity.
  assert (int_bytes (py_slice m_bad_time 48 49) = Ok 0) as F3 by reflexivity.
  assert (int_bytes (py_slice m_bad_time 49 50) = Ok 0) as F4 by reflexivity.
  assert (float_decode (py_slice m_bad_time 50 59) = Ok 100000000%float) as R
    by (vm_compute; reflexivity).
  assert (length m_sum_flags = 99%nat) as L3 by reflexivity.
  assert (parse_trigger_time (py_slice m_sum_flags 74 83) = Ok 0.001%float) as H4
    by (vm_compute; reflexivity).
  assert (int_bytes (py_slice m_sum_flags 46 47) = Ok 1) as G1 by reflexivity.
  assert (int_bytes (py_slice m_sum_flags 47 48) = Ok 2) as G2 by reflexivity.
  assert (int_bytes (py_slice m_sum_flags 48 49) = Ok 0) as G3 by reflexivity.
  assert (int_bytes (py_slice m_sum_flags 49 50) = Ok 0) as G4 by reflexivity.
  assert (float_decode (py_slice m_sum_flags 50 59) = Ok 250000%float) as R'
    by (vm_compute; reflexivity).
  assert (∃ st, read_loop true reader_init (deliveries io_bad_rate) = Completed st ∧
                meta st = m_bad_rate) as (st & H5 & H6).
  { eexists. split; [vm_compute; reflexivity | reflexivity]. }
  split; [split; assumption|]. split.
  { pose proof (proj1 (unparseable_fields m_bad_rate L1) _ H1) as [Hd Hg].
    split; [exact Hd|]. exact (Hg 1 true io_bad_rate st H5 H6). }
  split; [split_and!; assumption|]. split.
  { exact (proj1 (proj2 (unparseable_fields m_bad_time L2) _ _ _ _ _ F1 F2 F3 F4 R) _ H3). }
  split; [split_and!; assumption|].
  exact (proj2 (proj2 (unparseable_fields m_sum_flags L3) _ _ _ _ _ G1 G2 G3 G4 R') _ H4).
Defined.

(** C7 as stated fails: a trigger time field that is no number does not
    fail the decoding, its value is replaced by zero. *)
Lemma trigger_time_defaulted :
  parse_trigger_time (py_slice m_bad_time 74 83) = Raise ValueError ∧
  decode_meta m_bad_time =
    Ok {| channel_count := 2; sr := 100000000%float; tt := 0%float |}.
Proof. split; vm_compute; reflexivity. Qed.

(** ** Channel extraction *)

Lemma range_len_spec (lo hi step : Z) (j : nat) :
  0 < step → (j < range_len lo hi step)%nat ↔ lo + Z.of_nat j * step < hi.
Proof.
  intros Hs. unfold range_len. destruct (Z.ltb_spec lo hi) as [Hlt|Hge].
  - assert (0 ≤ (hi - lo - 1) / step) by (apply Z.div_pos; lia).
    split.
    + intros Hj.
      assert (Z.of_nat j ≤ (hi - lo - 1) / step) as Hq by lia.
      pose proof (Z.mul_div_le (hi - lo - 1) step Hs). nia.
    + intros Hj.
      assert (Z.of_nat j ≤ (hi - lo - 1) / step); [|lia].
      apply Z.div_le_lower_bound; nia.
  - split; [lia|]. intros Hj. nia.
Qed.

Lemma range_len_unique (lo hi step : Z) (nb : nat) :
  0 < step →
  (∀ j : nat, (j < nb)%nat ↔ lo + Z.of_nat j * step < hi) →
  range_len lo hi step = nb.
Proof.
  intros Hs Hnb.
  destruct (Nat.lt_trichotomy (range_len lo hi step) nb) as [Hlt|[Heq|Hgt]]; [|done|].
  - apply Hnb, range_len_spec in Hlt; [lia|done].
  - apply range_len_spec, Hnb in Hgt; [lia|done].
Qed.

Lemma signed_range (b : byte) : -128 ≤ signed b ≤ 127.
Proof. by destruct b. Qed.

Lemma py_slice_block (data : bytes) (s : Z) :
  0 ≤ s → s + 2000 ≤ Z.of_nat (length data) →
  py_slice data s (s + block_len) = take 2000 (drop (Z.to_nat s) data).
Proof.
  intros Hs Hlen. unfold block_len.
  rewrite <- (Z2Nat.id s) at 1 2 by lia.
  replace (Z.of_nat (Z.to_nat s) + 2000) with (Z.of_nat (Z.to_nat s + 2000)) by lia.
  rewrite py_slice_nat by lia. f_equal. lia.
Qed.

Lemma extend_blocks_whole (data : bytes) : ∀ (starts : list Z) (acc : list Z),
  Forall (λ s, 0 ≤ s ∧ s + 2000 ≤ Z.of_nat (length data)) starts →
  extend_blocks data starts acc = Ok (acc ++ concat (map (block_samples data) starts)).
Proof.
  induction starts as [|s starts IH]; intros acc Hall; simpl.
  - by rewrite app_nil_r.
  - apply Forall_cons in Hall as [[Hs Hlen] Hall].
    rewrite py_slice_block by done. unfold unpack_block.
    replace (Z.of_nat (length (take 2000 (drop (Z.to_nat s) data))) =? block_len) with true.
    2:{ symmetry. apply Z.eqb_eq. rewrite length_take, length_drop. unfold block_len. lia. }
    simpl. rewrite IH by done. by rewrite <- app_assoc.
Qed.

Lemma extract_whole_blocks (data : bytes) (n k : Z) (nb : nat) :
  1 ≤ n → 1 ≤ k ≤ n →
  (∀ j : nat, (j < nb)%nat ↔ block_start n k j < Z.of_nat (length data)) →
  (∀ j : nat, (j < nb)%nat → block_start n k j + 2000 ≤ Z.of_nat (length data)) →
  extract data n k =
    Ok (concat (map (λ j, block_samples data (block_start n k j)) (seq 0 nb))).
Proof.
  intros Hn Hk Hnb Hwhole. unfold extract, py_range, block_len.
  replace (2000 * n =? 0) with false by (symmetry; apply Z.eqb_neq; lia).
  replace (0 <? 2000 * n) with true by (symmetry; apply Z.ltb_lt; lia).
  rewrite (range_len_unique _ _ _ nb) by (done || lia).
  simpl. rewrite extend_blocks_whole.
  - simpl. by rewrite map_map.
  - apply Forall_forall. intros s Hs.
    apply list_elem_of_fmap in Hs as (j & -> & Hj).
    apply elem_of_seq in Hj. specialize (Hwhole j ltac:(lia)).
    unfold block_start in Hwhole. split; [nia|lia].
Qed.

(** C4, as the code has it. With [n ≥ 1] channels enabled and a channel [k] between 1 and
    [n], the blocks of channel [k] are those that start at
    [(k-1)*2000 + j*2000*n] inside the buffer; when each of them is a
    whole block of 2000 bytes, the extraction returns their bytes read as
    signed 8-bit values, block after block: 2000 values between -128 and
    127 for each. In particular, with two channels, a buffer of 4000
    bytes gives bytes [[0,2000)] to channel 1 and [[2000,4000)] to channel
    2, and a buffer of 8000 bytes gives [[0,2000)] then [[4000,6000)] to
    channel 1. *)
Theorem extract_channel_blocks :
  (∀ (data : bytes) (n k : Z) (nb : nat),
     1 ≤ n → 1 ≤ k ≤ n →
     (∀ j : nat, (j < nb)%nat ↔ block_start n k j < Z.of_nat (length data)) →
     (∀ j : nat, (j < nb)%nat → block_start n k j + 2000 ≤ Z.of_nat (length data)) →
     ∃ samples,
       extract data n k = Ok samples ∧
       samples = concat (map (λ j, map signed (take 2000 (drop (Z.to_nat (block_start n k j)) data)))
                             (seq 0 nb)) ∧
       Z.of_nat (length samples) = 2000 * Z.of_nat nb ∧
       Forall (λ v, -128 ≤ v ≤ 127) samples) ∧
  (∀ data : bytes, Z.of_nat (length data) = 4000 →
     extract data 2 1 = Ok (map signed (take 2000 data)) ∧
     extract data 2 2 = Ok (map signed (take 2000 (drop 2000 data)))) ∧
  (∀ data : bytes, Z.of_nat (length data) = 8000 →
     extract data 2 1 =
       Ok (map signed (take 2000 data ++ take 2000 (drop 4000 data)))).
Proof.
  split_and!.
  - intros data n k nb Hn Hk Hnb Hwhole.
    eexists. split; [by apply extract_whole_blocks|]. split; [done|]. split.
    + clear Hnb. induction nb as [|nb IH]; [done|].
      rewrite seq_S, map_app, concat_app, length_app, Nat2Z.inj_add.
      rewrite IH by (intros; apply Hwhole; lia).
      cbn [map concat Nat.add]. unfold block_samples.
      rewrite app_nil_r, length_map, length_take, length_drop.
      specialize (Hwhole nb ltac:(lia)). unfold block_start in *. nia.
    + apply Forall_concat, Forall_fmap, Forall_forall. intros j _.
      apply Forall_fmap, Forall_forall. intros b _. apply signed_range.
  - intros data Hlen. split.
    + rewrite (extract_whole_blocks data 2 1 1); unfold block_start; try lia.
      simpl. by rewrite app_nil_r.
    + rewrite (extract_whole_blocks data 2 2 1); unfold block_start; try lia.
      simpl. by rewrite app_nil_r.
  - intros data Hlen.
    rewrite (extract_whole_blocks data 2 1 2); unfold block_start; try lia.
    simpl. by rewrite app_nil_r, map_app.
Qed.

Lemma extract_channel_blocks_witness :
  (1 ≤ 2 ∧ 1 ≤ 2 ≤ 2 ∧
   (∀ j : nat, (j < 1)%nat ↔ block_start 2 2 j < Z.of_nat (length (replicate 4000 x80))) ∧
   (∀ j : nat, (j < 1)%nat →
      block_start 2 2 j + 2000 ≤ Z.of_nat (length (replicate 4000 x80)))) ∧
  ∃ samples,
    extract (replicate 4000 x80) 2 2 = Ok samples ∧
    samples = concat (map (λ j, map signed (take 2000 (drop (Z.to_nat (block_start 2 2 j))
                                                         (replicate 4000 x80))))
                          (seq 0 1)) ∧
    Z.of_nat (length samples) = 2000 * Z.of_nat 1 ∧
    Forall (λ v, -128 ≤ v ≤ 127) samples.
Proof.
  assert (∀ j : nat, (j < 1)%nat ↔ block_start 2 2 j < Z.of_nat (length (replicate 4000 x80))) as H1.
  { intros j. rewrite length_replicate. unfold block_start. lia. }
  assert (∀ j : nat, (j < 1)%nat →
            block_start 2 2 j + 2000 ≤ Z.of_nat (length (replicate 4000 x80))) as H2.
  { intros j. rewrite length_replicate. unfold block_start. lia. }
  split; [split_and!; (lia || done)|].
  apply (proj1 extract_channel_blocks (replicate 4000 x80) 2 2 1%nat); (lia || done).
Defined.

(** ** Calibration *)

(** C5. Each raw sample [v] becomes the voltage [v / 25 * scale - offset],
    25 being [grid_y]: raw 25 at scale 1.0 and offset 0.0 is 1.0, raw -25
    is -1.0, and raw 0 at scale 2.0 and offset 0.5 is -0.5. *)
Theorem voltaje_formula :
  (∀ (samples : list Z) (scale offset : float) (i : nat) (v : Z),
     samples !! i = Some v →
     voltaje samples scale offset !! i =
       Some (float_of_Z v / 25 * scale - offset)%float) ∧
  (∀ (samples : list Z) (scale offset : float),
     length (voltaje samples scale offset) = length samples) ∧
  voltaje [25; -25] 1 0 = [1; -1]%float ∧
  voltaje [0] 2 0.5 = [-0.5]%float.
Proof.
  split_and!.
  - intros samples scale offset i v Hv. unfold voltaje.
    change (map (voltage scale offset) samples) with (voltage scale offset <$> samples).
    rewrite list_lookup_fmap, Hv. reflexivity.
  - intros. apply length_map.
  - vm_compute. reflexivity.
  - vm_compute. reflexivity.
Qed.

Lemma voltaje_formula_witness :
  [127; -128] !! 1%nat = Some (-128) ∧
  voltaje [127; -128] 0.2 0.1 !! 1%nat = Some (float_of_Z (-128) / 25 * 0.2 - 0.1)%float.
Proof.
  split; [reflexivity|].
  apply (proj1 voltaje_formula [127; -128] 0.2%float 0.1%float 1%nat (-128)). reflexivity.
Defined.

Lemma time_axis_nonzero (rate t0 : float) : ∀ (n : nat) (i : Z),
  (rate =? 0)%float = false →
  time_axis i n rate t0 =
    Ok (map (λ j : nat, (float_of_Z (i + Z.of_nat j) / rate - t0)%float) (seq 0 n)).
Proof.
  induction n as [|n IH]; intros i Hr; [done|].
  cbn [time_axis]. unfold div_int_float. rewrite Hr. simpl.
  rewrite IH by done. simpl. rewrite Z.add_0_r. do 2 f_equal.
  rewrite <- seq_shift, map_map. apply map_ext. intros j.
  do 3 f_equal. lia.
Qed.

Lemma calibrate_nonzero (samples : list Z) (scale offset rate t0 : float) :
  (rate =? 0)%float = false →
  calibrate samples scale offset rate t0 =
    Ok (map (λ j : nat, (float_of_Z (Z.of_nat j) / rate - t0)%float) (seq 0 (length samples)),
        voltaje samples scale offset).
Proof.
  intros Hr. unfold calibrate, tiempo. rewrite time_axis_nonzero by done. done.
Qed.

(** C6, as the code has it. For a sampling rate other than zero, calibration returns a time
    sequence and a voltage sequence as long as the sample set, with
    [time[i] = i / rate - t0]. At 1e6 samples per second and a trigger
    time of 0.001, the time of sample 0 is -0.001 and that of sample 1000
    is 0.0. (At a rate of zero Python raises on the division.) *)
Theorem calibrate_time_axis :
  (∀ (samples : list Z) (scale offset rate t0 : float),
     (rate =? 0)%float = false →
     ∃ t v, calibrate samples scale offset rate t0 = Ok (t, v) ∧
            length t = length samples ∧ length v = length samples ∧
            ∀ i : nat, (i < length samples)%nat →
              t !! i = Some (float_of_Z (Z.of_nat i) / rate - t0)%float) ∧
  (∀ (samples : list Z) (scale offset : float),
     (1000 < length samples)%nat →
     ∃ t v, calibrate samples scale offset 1e6 0.001 = Ok (t, v) ∧
            t !! 0%nat = Some (-0.001)%float ∧ t !! 1000%nat = Some 0%float).
Proof.
  assert (∀ (rate t0 : float) (n i : nat), (i < n)%nat →
            map (λ j : nat, (float_of_Z (Z.of_nat j) / rate - t0)%float) (seq 0 n) !! i =
              Some (float_of_Z (Z.of_nat i) / rate - t0)%float) as Hix.
  { intros rate t0 n i Hi.
    change (map ?f ?l) with (f <$> l).
    by rewrite list_lookup_fmap, lookup_seq_lt. }
  split.
  - intros samples scale offset rate t0 Hr.
    eexists _, _. split; [by apply calibrate_nonzero|].
    split_and!.
    + by rewrite length_map, length_seq.
    + apply length_map.
    + intros i Hi. by apply Hix.
  - intros samples scale offset Hlen.
    eexists _, _. split; [by apply calibrate_nonzero|].
    rewrite !Hix by lia. split; f_equal; vm_compute; reflexivity.
Qed.

Lemma calibrate_time_axis_witness :
  ((1e6 =? 0)%float = false ∧ (1000 < length (replicate 2000 0))%nat) ∧
  (∃ t v, calibrate (replicate 2000 0) 2 0.5 1e6 0.001 = Ok (t, v) ∧
          length t = length (replicate 2000 0) ∧ length v = length (replicate 2000 0) ∧
          ∀ i : nat, (i < length (replicate 2000 0))%nat →
            t !! i = Some (float_of_Z (Z.of_nat i) / 1e6 - 0.001)%float) ∧
  (∃ t v, calibrate (replicate 2000 0) 2 0.5 1e6 0.001 = Ok (t, v) ∧
          t !! 0%nat = Some (-0.001)%float ∧ t !! 1000%nat = Some 0%float).
Proof.
  assert ((1e6 =? 0)%float = false) as H1 by reflexivity.
  assert (1000 < length (replicate 2000 0))%nat as H2 by (rewrite length_replicate; lia).
  split; [done|]. split.
  - apply (proj1 calibrate_time_axis (replicate 2000 0) 2%float 0.5%float 1e6%float 0.001%float H1).
  - apply (proj2 calibrate_time_axis (replicate 2000 0) 2%float 0.5%float H2).
Defined.

(** C4 as stated fails on a buffer whose last block is cut short:
    [struct.unpack] raises and the fetch returns [None, None]. *)
Lemma partial_block_raises :
  extract (replicate 2001 x19) 1 1 = Raise StructError ∧
  get_waveform 1 true io_cut_block = Returned None None.
Proof. split; vm_compute; reflexivity. Qed.

(** C6 as stated fails at a sampling rate of zero: the division raises
    and the fetch returns [None, None]. *)
Lemma zero_rate_raises :
  calibrate [0] 1 0 0 0.001 = Raise ZeroDivisionError ∧
  get_waveform 1 true io_zero_rate = Returned None None.
Proof. split; vm_compute; reflexivity. Qed.

(** ** The result of a fetch *)

Lemma read_loop_app cb : ∀ ds st st' rest,
  read_loop cb st ds = Reading st' →
  read_loop cb st (ds ++ rest) = read_loop cb st' rest.
Proof.
  induction ds as [|d ds IH]; intros st st' rest; simpl.
  - by intros [= ->].
  - destruct d as [inp|status]; [|done].
    destruct (readPacket cb st inp) as [[st1 [|]]|e]; [done| |done].
    apply IH.
Qed.

(** C10, as the code has it. Every exception raised during a fetch, in
    the packet loop or after it, and a transport failure at any read, make
    [get_waveform] return [None, None]; a fetch that returns sequences has
    raised nothing; and [None, None] differs from every pair of
    sequences, the empty ones included. The value returned does not tell
    one failure from another. *)
Theorem failure_returns_None (ch : Z) (cb : bool) (io : instrument) :
  (∀ e, read_loop cb reader_init (deliveries io) = Raised e →
        get_waveform ch cb io = Returned None None) ∧
  (∀ st e, read_loop cb reader_init (deliveries io) = Completed st →
           after_transfer ch io st = Raise e →
           get_waveform ch cb io = Returned None None) ∧
  (∀ ds st status rest,
     deliveries io = ds ++ Failure status :: rest →
     read_loop cb reader_init ds = Reading st →
     get_waveform ch cb io = Returned None None) ∧
  (∀ t v, get_waveform ch cb io = Returned (Some t) v →
          ∃ st v', v = Some v' ∧
                   read_loop cb reader_init (deliveries io) = Completed st ∧
                   after_transfer ch io st = Ok (t, v')) ∧
  (∀ t v : list float, Returned None None ≠ Returned (Some t) (Some v)).
Proof.
  unfold get_waveform. split_and!.
  - by intros e ->.
  - by intros st e -> ->.
  - intros ds st status rest -> Hds.
    by rewrite (read_loop_app _ _ _ _ _ Hds).
  - intros t v.
    destruct (read_loop cb reader_init (deliveries io)) as [st|e|st]; [|done|done].
    destruct (after_transfer ch io st) as [[t' v']|e] eqn:E; [|done].
    intros H. simplify_eq. by exists st, v'.
  - done.
Qed.

Lemma failure_returns_None_witness :
  (read_loop true reader_init (deliveries io_transport) = Raised (VisaIOError 7) ∧
   get_waveform 1 true io_transport = Returned None None) ∧
  (deliveries (replies (map Response (replicate 3 no_chunk_yet) ++ [Failure 7])) =
     map Response (replicate 3 no_chunk_yet) ++ Failure 7 :: [] ∧
   read_loop true reader_init (map Response (replicate 3 no_chunk_yet)) = Reading reader_init ∧
   get_waveform 1 true (replies (map Response (replicate 3 no_chunk_yet) ++ [Failure 7])) =
     Returned None None).
Proof.
  assert (read_loop true reader_init (deliveries io_transport) = Raised (VisaIOError 7)) as H1
    by reflexivity.
  assert (read_loop true reader_init (map Response (replicate 3 no_chunk_yet)) =
          Reading reader_init) as H2 by (vm_compute; reflexivity).
  split.
  - split; [exact H1|].
    exact (proj1 (failure_returns_None 1 true io_transport) _ H1).
  - split; [reflexivity | split; [exact H2|]].
    exact (proj1 (proj2 (proj2 (failure_returns_None 1 true
             (replies (map Response (replicate 3 no_chunk_yet) ++ [Failure 7])))))
             _ _ 7 [] eq_refl H2).
Defined.

(** C10 as stated fails: a transport failure and a sampling rate that is
    no number give the same result, which does not tell them apart; and
    asking for channel 2 when one channel is enabled gives empty
    sequences, as a transfer of no samples does. *)
Lemma failures_not_told_apart :
  get_waveform 1 true io_transport = Returned None None ∧
  get_waveform 1 true io_bad_rate = Returned None None ∧
  get_waveform 2 true io_one_block = Returned (Some []) (Some []) ∧
  get_waveform 1 true io_empty = Returned (Some []) (Some []).
Proof. split_and!; vm_compute; reflexivity. Qed.

(** * Further properties of the packet reader *)

Lemma py_index_Ok (len : nat) (i : Z) (k : nat) :
  py_index len i = Ok k → (k < len)%nat.
Proof.
  unfold py_index.
  destruct (Z.leb_spec 0 i), (Z.ltb_spec i (Z.of_nat len)),
    (Z.leb_spec (- Z.of_nat len) i), (Z.ltb_spec i 0);
    simpl; intros Hk; simplify_eq; lia.
Qed.

Lemma write_payload_length (p : bytes) : ∀ (data : bytes) (pos : Z) (data' : bytes),
  write_payload data pos p = Ok data' → length data' = length data.
Proof.
  induction p as [|b p IH]; intros data pos data'; simpl.
  - by intros [= ->].
  - unfold py_setitem. destruct (py_index (length data) pos) as [k|e]; simpl; [|done].
    intros H. apply IH in H. by rewrite length_insert in H.
Qed.

(** What a call of [readPacket] that returns has done: nothing, or one
    packet written to the buffer in use (allocated by this call when it
    is the first). *)
Lemma readPacket_Ok cb st inp st' b :
  readPacket cb st inp = Ok (st', b) →
  (st' = st ∧ b = false) ∨
  ∃ total data0 m pos data',
    (if samples_total st =? -1
     then bytearray total = Ok data0 ∧ m = py_slice inp 29 128
     else total = samples_total st ∧ data0 = samples_data st ∧ m = meta st) ∧
    write_payload data0 pos (drop 128 inp) = Ok data' ∧
    let got := samples_got st + (Z.of_nat (length inp) - 128) in
    st' = {| samples_total := total; samples_data := data'; samples_got := got;
             meta := m;
             progress := if cb then progress st ++ [(got, total)] else progress st |} ∧
    b = (got =? total).
Proof.
  unfold readPacket.
  destruct (py_getitem inp 0) as [b0|]; simpl; [|done].
  destruct (negb (Byte.eqb b0 x23)); [intros [= <- <-]; by left|].
  destruct (py_getitem inp 1) as [b1|]; simpl; [|done].
  destruct (negb (Byte.eqb b1 x39)); [intros [= <- <-]; by left|].
  destruct (int_decode (py_slice inp 2 11)) as [n|]; simpl; [|done].
  destruct (n =? 0); [intros [= <- <-]; by left|].
  destruct (int_decode (py_slice inp 11 20)) as [total|]; simpl; [|done].
  destruct (int_decode (py_slice inp 20 29)) as [pos|]; simpl; [|done].
  change (Z.to_nat end_of_meta) with 128%nat. unfold end_of_meta.
  destruct (samples_total st =? -1) eqn:E.
  - destruct (bytearray total) as [data0|] eqn:Eb; simpl; [|done].
    destruct (write_payload data0 pos (drop 128 inp)) as [data'|] eqn:Ew; simpl; [|done].
    intros [= <- <-]. right. by exists total, data0, (py_slice inp 29 128), pos, data'.
  - destruct (negb (samples_total st =? total)) eqn:Et; [intros [= <- <-]; by left|].
    destruct (write_payload (samples_data st) pos (drop 128 inp)) as [data'|] eqn:Ew;
      simpl; [|done].
    intros [= <- <-]. right.
    by exists (samples_total st), (samples_data st), (meta st), pos, data'.
Qed.

Lemma bytearray_Ok (n : Z) (data : bytes) :
  bytearray n = Ok data → 0 ≤ n ∧ Z.of_nat (length data) = n.
Proof.
  unfold bytearray. destruct (Z.ltb_spec n 0); [done|].
  intros [= <-]. rewrite length_replicate. lia.
Qed.

Lemma readPacket_allocated cb st inp st' b :
  readPacket cb st inp = Ok (st', b) →
  samples_total st = -1 ∨ allocated st →
  (st' = st ∧ b = false) ∨
  (allocated st' ∧ b = (samples_got st' =? samples_total st') ∧
   samples_got st' = samples_got st + (Z.of_nat (length inp) - 128) ∧
   (allocated st → samples_total st' = samples_total st ∧ meta st' = meta st) ∧
   (samples_total st = -1 → meta st' = py_slice inp 29 128) ∧
   progress st `prefix_of` progress st').
Proof.
  intros H Hst. apply readPacket_Ok in H as [?|(total & data0 & m & pos & data' & Hfirst & Hw & -> & ->)];
    [by left|right].
  apply write_payload_length in Hw. unfold allocated. simpl.
  destruct (Z.eqb_spec (samples_total st) (-1)) as [E|E].
  - destruct Hfirst as [Hb ->]. apply bytearray_Ok in Hb as [? ?].
    split_and!; try done; try lia.
    destruct cb; [by apply prefix_app_r|done].
  - destruct Hfirst as (-> & -> & ->). destruct Hst as [?|[? ?]]; [done|].
    split_and!; try done; try lia.
    destruct cb; [by apply prefix_app_r|done].
Qed.

(** From a buffer in use, the loop keeps the declared total, the size of
    the buffer and the metadata, and only adds to the observer's calls. *)
Lemma read_loop_keeps cb : ∀ ds st st',
  allocated st →
  read_loop cb st ds = Completed st' ∨ read_loop cb st ds = Reading st' →
  allocated st' ∧ samples_total st' = samples_total st ∧ meta st' = meta st ∧
  progress st `prefix_of` progress st' ∧
  (read_loop cb st ds = Completed st' → samples_got st' = samples_total st').
Proof.
  induction ds as [|d ds IH]; intros st st' Ha; simpl.
  - intros [?|[= <-]]; done.
  - destruct d as [inp|status]; [|intros [?|?]; done].
    destruct (readPacket cb st inp) as [[st1 b]|e] eqn:E; [|intros [?|?]; done].
    destruct (readPacket_allocated _ _ _ _ _ E (or_intror Ha))
      as [[-> ->]|(Ha1 & -> & Hg & Hk & _ & Hp)].
    + by apply IH.
    + destruct (Hk Ha) as [Ht Hm].
      destruct (Z.eqb_spec (samples_got st1) (samples_total st1)) as [Eg|Eg].
      * intros [[= <-]|?]; done.
      * intros H. destruct (IH st1 st' Ha1 H) as (? & ? & ? & ? & ?).
        split_and!; try done; try congruence. by etrans.
Qed.

Lemma read_loop_from_init cb : ∀ ds st',
  read_loop cb reader_init ds = Completed st' →
  allocated st' ∧ samples_got st' = samples_total st'.
Proof.
  induction ds as [|d ds IH]; intros st'; simpl; [done|].
  destruct d as [inp|status]; [|done].
  destruct (readPacket cb reader_init inp) as [[st1 b]|e] eqn:E; [|done].
  destruct (readPacket_allocated _ _ _ _ _ E (or_introl eq_refl))
    as [[-> ->]|(Ha1 & -> & Hg & _ & _ & _)].
  - apply IH.
  - destruct (Z.eqb_spec (samples_got st1) (samples_total st1)) as [Eg|Eg].
    + by intros [= <-].
    + intros H. destruct (read_loop_keeps cb ds st1 st' Ha1 (or_introl H)) as (? & ? & ? & ? & Hc).
      split; [done|]. by apply Hc.
Qed.

(** X1. When the packet loop completes, the buffer it hands over has
    exactly the declared [total_samples] bytes, and the count of bytes
    received equals that total. *)
Theorem completed_buffer_size (cb : bool) (ds : list delivery) (st : reader) :
  read_loop cb reader_init ds = Completed st →
  0 ≤ samples_total st ∧
  Z.of_nat (length (samples_data st)) = samples_total st ∧
  samples_got st = samples_total st.
Proof.
  intros H. destruct (read_loop_from_init cb ds st H) as [[? ?] ?]. done.
Qed.

Lemma completed_buffer_size_witness :
  read_loop true reader_init (map Response swapped_inps) =
    Completed {| samples_total := 6; samples_data := [x01; x02; x03; x04; x05; x06];
                 samples_got := 6; meta := m0; progress := [(2, 6); (4, 6); (6, 6)] |} ∧
  0 ≤ 6 ∧ Z.of_nat (length [x01; x02; x03; x04; x05; x06]) = 6 ∧ 6 = 6.
Proof.
  assert (read_loop true reader_init (map Response swapped_inps) =
    Completed {| samples_total := 6; samples_data := [x01; x02; x03; x04; x05; x06];
                 samples_got := 6; meta := m0; progress := [(2, 6); (4, 6); (6, 6)] |}) as H
    by (vm_compute; reflexivity).
  split; [exact H|]. exact (completed_buffer_size true _ _ H).
Defined.

Lemma dropped_junk cb st (junk : list bytes) :
  Forall (λ j, bad_marker j ∨ zero_length j) junk → Forall (dropped cb st) junk.
Proof.
  intros H. eapply Forall_impl; [exact H|]. intros j [?|?];
    [by apply readPacket_bad_marker | by apply readPacket_zero_length].
Qed.

(** X2. The metadata region and the total are those of the first data
    packet, whatever is delivered before it without a marker or with a
    chunk length of zero, and whatever the later packets carry. *)
Theorem meta_of_first_data_packet (cb : bool) (junk : list bytes) (inp : bytes)
    (total pos : Z) (rest : list delivery) (st : reader) :
  Forall (λ j, bad_marker j ∨ zero_length j) junk →
  header inp total pos →
  read_loop cb reader_init (map Response junk ++ Response inp :: rest) = Completed st →
  meta st = py_slice inp 29 128 ∧ samples_total st = total.
Proof.
  intros Hj Hh. rewrite read_loop_dropped by (by apply dropped_junk).
  simpl. destruct (readPacket cb reader_init inp) as [[st1 b]|e] eqn:E; [|done].
  pose proof E as E'. rewrite (readPacket_header _ _ _ _ _ Hh) in E'. simpl in E'.
  destruct (bytearray total) as [data0|] eqn:Eb; simpl in E'; [|discriminate E'].
  destruct (write_payload _ _ _) as [data'|] eqn:Ew; simpl in E'; [|discriminate E'].
  apply bytearray_Ok in Eb as [Hpos Hlen]. apply write_payload_length in Ew.
  injection E' as E1 E2.
  assert (meta st1 = py_slice inp 29 128 ∧ samples_total st1 = total ∧ allocated st1)
    as (Hm & Ht & Ha1).
  { rewrite <- E1. unfold allocated. simpl. split_and!; (done || lia). }
  destruct b.
  - by intros [= <-].
  - intros H. destruct (read_loop_keeps cb rest st1 st Ha1 (or_introl H)) as (_ & ? & ? & _).
    split; congruence.
Qed.

Lemma meta_of_first_data_packet_witness :
  (Forall (λ j, bad_marker j ∨ zero_length j) [stray; no_chunk_yet] ∧
   header (packet 2 6 0 m_one [x01; x02]) 6 0 ∧
   read_loop true reader_init
     (map Response [stray; no_chunk_yet] ++
      Response (packet 2 6 0 m_one [x01; x02]) ::
      [Response (packet 4 6 2 m0 [x03; x04; x05; x06])]) =
     Completed {| samples_total := 6; samples_data := [x01; x02; x03; x04; x05; x06];
                  samples_got := 6; meta := m_one; progress := [(2, 6); (6, 6)] |}) ∧
  m_one = py_slice (packet 2 6 0 m_one [x01; x02]) 29 128 ∧ 6 = 6.
Proof.
  assert (Forall (λ j, bad_marker j ∨ zero_length j) [stray; no_chunk_yet]) as H1.
  { repeat (apply Forall_cons_2); [left|right|apply Forall_nil_2].
    - left. exists x45. split; [reflexivity | discriminate].
    - apply no_chunk_yet_zero_length. }
  assert (header (packet 2 6 0 m_one [x01; x02]) 6 0) as H2.
  { split; [split; reflexivity | exists 2; split; [vm_compute; reflexivity | lia]
           | vm_compute; reflexivity | vm_compute; reflexivity]. }
  assert (read_loop true reader_init
     (map Response [stray; no_chunk_yet] ++
      Response (packet 2 6 0 m_one [x01; x02]) ::
      [Response (packet 4 6 2 m0 [x03; x04; x05; x06])]) =
     Completed {| samples_total := 6; samples_data := [x01; x02; x03; x04; x05; x06];
                  samples_got := 6; meta := m_one; progress := [(2, 6); (6, 6)] |}) as H3
    by (vm_compute; reflexivity).
  split; [done|].
  exact (meta_of_first_data_packet true _ _ 6 0 _ _ H1 H2 H3).
Defined.

(** X3. Once more bytes have been counted than the transfer declares,
    no response of full length (128 bytes or more) completes it: the loop
    can only go on reading or end with an exception. *)
Theorem overshoot_never_completes (cb : bool) (inps : list bytes) (st : reader) :
  samples_total st ≠ -1 →
  samples_total st < samples_got st →
  Forall (λ inp, (128 ≤ length inp)%nat) inps →
  ∀ st', read_loop cb st (map Response inps) ≠ Completed st'.
Proof.
  intros Hin Hover Hall. revert st Hin Hover.
  induction Hall as [|inp inps Hlen _ IH]; intros st Hin Hover st'; simpl; [done|].
  destruct (readPacket cb st inp) as [[st1 b]|e] eqn:E; [|done].
  apply readPacket_Ok in E as [[-> ->]|(total & data0 & m & pos & data' & Hf & _ & -> & ->)].
  - by apply IH.
  - rewrite (proj2 (Z.eqb_neq _ _) Hin) in Hf. destruct Hf as (-> & _ & _).
    replace (samples_got st + (Z.of_nat (length inp) - 128) =? samples_total st) with false
      by (symmetry; apply Z.eqb_neq; lia).
    apply IH; simpl; [done | lia].
Qed.

Lemma overshoot_never_completes_witness :
  (samples_total overshot ≠ -1 ∧
   samples_total overshot < samples_got overshot ∧
   Forall (λ inp, (128 ≤ length inp)%nat) [packet 1 4 3 m0 [x07]]) ∧
  ∀ st', read_loop true overshot (map Response [packet 1 4 3 m0 [x07]]) ≠ Completed st'.
Proof.
  assert (Forall (λ inp, (128 ≤ length inp)%nat) [packet 1 4 3 m0 [x07]]) as H3.
  { apply Forall_cons_2; [|apply Forall_nil_2]. vm_compute. lia. }
  split; [split_and!; [simpl; lia | simpl; lia | exact H3]|].
  apply (overshoot_never_completes true [packet 1 4 3 m0 [x07]] overshot);
    [simpl; lia | simpl; lia | exact H3].
Defined.

(** X4. More deliveries after a run of the loop: a completed transfer
    stays as it is (nothing more is read), an exception stays, and a loop
    that was reading again goes on from its state. *)
Theorem read_loop_more (cb : bool) (ds rest : list delivery) (st : reader) :
  (∀ st', read_loop cb st ds = Completed st' → read_loop cb st (ds ++ rest) = Completed st') ∧
  (∀ e, read_loop cb st ds = Raised e → read_loop cb st (ds ++ rest) = Raised e) ∧
  (∀ st', read_loop cb st ds = Reading st' →
          read_loop cb st (ds ++ rest) = read_loop cb st' rest).
Proof.
  revert st. induction ds as [|d ds IH]; intros st; simpl.
  - split_and!; [done | done | by intros st' [= ->]].
  - destruct d as [inp|status]; [|done].
    destruct (readPacket cb st inp) as [[st1 [|]]|e]; [done | apply IH | done].
Qed.

Lemma read_loop_more_witness :
  (read_loop true reader_init [Response one_packet] =
     Completed {| samples_total := 2; samples_data := [x01; x02]; samples_got := 2;
                  meta := m0; progress := [(2, 2)] |} ∧
   read_loop true reader_init ([Response one_packet] ++ [Failure 7]) =
     Completed {| samples_total := 2; samples_data := [x01; x02]; samples_got := 2;
                  meta := m0; progress := [(2, 2)] |}) ∧
  (read_loop true reader_init [Response no_chunk_yet] = Reading reader_init ∧
   read_loop true reader_init ([Response no_chunk_yet] ++ [Failure 7]) =
     read_loop true reader_init [Failure 7]).
Proof.
  assert (read_loop true reader_init [Response one_packet] =
     Completed {| samples_total := 2; samples_data := [x01; x02]; samples_got := 2;
                  meta := m0; progress := [(2, 2)] |}) as H1 by (vm_compute; reflexivity).
  assert (read_loop true reader_init [Response no_chunk_yet] = Reading reader_init) as H2
    by (vm_compute; reflexivity).
  split; (split; [done|]).
  - exact (proj1 (read_loop_more true [Response one_packet] [Failure 7] reader_init) _ H1).
  - exact (proj2 (proj2 (read_loop_more true [Response no_chunk_yet] [Failure 7] reader_init))
             _ H2).
Defined.

(** ** Writes into the buffer *)

Lemma py_setitem_cases (data : bytes) (pos : Z) (b : byte) :
  let len := Z.of_nat (length data) in
  (- len ≤ pos < len → ∃ k, py_setitem data pos b = Ok (<[k:=b]> data)) ∧
  (pos < - len ∨ len ≤ pos → py_setitem data pos b = Raise IndexError).
Proof.
  unfold py_setitem, py_index. simpl.
  destruct (Z.leb_spec 0 pos), (Z.ltb_spec pos (Z.of_nat (length data))),
    (Z.leb_spec (- Z.of_nat (length data)) pos), (Z.ltb_spec pos 0);
    simpl; split; intros Hr; first [lia | by eexists | done].
Qed.

Lemma write_payload_cases (p : bytes) : ∀ (data : bytes) (pos : Z),
  let len := Z.of_nat (length data) in
  (p = [] ∨ (- len ≤ pos ∧ pos + Z.of_nat (length p) ≤ len) →
   ∃ data', write_payload data pos p = Ok data') ∧
  (p ≠ [] → pos < - len ∨ len < pos + Z.of_nat (length p) →
   write_payload data pos p = Raise IndexError).
Proof.
  induction p as [|b p IH]; intros data pos; simpl.
  - split; [by eauto | done].
  - destruct (py_setitem_cases data pos b) as [Hin Hout]. simpl in *. split.
    + intros [?|[Hlo Hhi]]; [done|].
      destruct Hin as [k ->]; [lia|]. simpl.
      apply (proj1 (IH _ _)). rewrite length_insert.
      destruct p; [by left | right; simpl in *; lia].
    + intros _ Hbad.
      destruct (decide (- Z.of_nat (length data) ≤ pos < Z.of_nat (length data))) as [Hr|Hr].
      * destruct Hin as [k ->]; [done|]. simpl.
        apply (proj2 (IH _ _)); rewrite ?length_insert.
        -- intros ->. simpl in *. lia.
        -- lia.
      * rewrite Hout by lia. done.
Qed.

(** X5. A data packet whose payload does not fit in the buffer, before
    its start or past its end, raises [IndexError], which ends the packet
    loop; nothing keeps the write inside the declared total. *)
Theorem overrun_raises (cb : bool) (st : reader) (inp : bytes) (pos : Z)
    (rest : list delivery) :
  allocated st →
  header inp (samples_total st) pos →
  (128 < length inp)%nat →
  pos < - samples_total st ∨
    samples_total st < pos + (Z.of_nat (length inp) - 128) →
  readPacket cb st inp = Raise IndexError ∧
  read_loop cb st (Response inp :: rest) = Raised IndexError.
Proof.
  intros [Hpos Hlen] Hh Hsz Hbad.
  assert (readPacket cb st inp = Raise IndexError) as E.
  { rewrite (readPacket_header _ _ _ _ _ Hh). simpl.
    replace (samples_total st =? -1) with false by (symmetry; apply Z.eqb_neq; lia).
    rewrite Z.eqb_refl. simpl. change (Z.to_nat end_of_meta) with 128%nat.
    rewrite (proj2 (write_payload_cases (drop 128 inp) (samples_data st) pos)); [done| |].
    - intros Hnil. apply (f_equal length) in Hnil. rewrite length_drop in Hnil.
      simpl in Hnil. lia.
    - rewrite length_drop, Hlen. lia. }
  split; [exact E|]. simpl. by rewrite E.
Qed.

Lemma overrun_raises_witness :
  (allocated under_way ∧
   header (packet 2 4 3 m0 [x02; xfe]) (samples_total under_way) 3 ∧
   (128 < length (packet 2 4 3 m0 [x02; xfe]))%nat ∧
   (3 < - samples_total under_way ∨
    samples_total under_way < 3 + (Z.of_nat (length (packet 2 4 3 m0 [x02; xfe])) - 128))) ∧
  readPacket true under_way (packet 2 4 3 m0 [x02; xfe]) = Raise IndexError ∧
  read_loop true under_way (Response (packet 2 4 3 m0 [x02; xfe]) :: []) = Raised IndexError.
Proof.
  assert (allocated under_way) as H1 by (split; simpl; lia).
  assert (header (packet 2 4 3 m0 [x02; xfe]) (samples_total under_way) 3) as H2.
  { split; [split; reflexivity | exists 2; split; [vm_compute; reflexivity | lia]
           | vm_compute; reflexivity | vm_compute; reflexivity]. }
  assert (128 < length (packet 2 4 3 m0 [x02; xfe]))%nat as H3 by (vm_compute; lia).
  assert (3 < - samples_total under_way ∨
    samples_total under_way < 3 + (Z.of_nat (length (packet 2 4 3 m0 [x02; xfe])) - 128)) as H4.
  { right. vm_compute. reflexivity. }
  split; [done|].
  exact (overrun_raises true under_way _ 3 [] H1 H2 H3 H4).
Defined.

Lemma write_payload_from_end (p : bytes) : ∀ (data : bytes) (k : nat),
  (length p ≤ k ≤ length data)%nat →
  write_payload data (- Z.of_nat k) p =
    write_payload data (Z.of_nat (length data - k)) p.
Proof.
  induction p as [|b p IH]; intros data k Hk; simpl in *; [done|].
  assert (py_setitem data (- Z.of_nat k) b = Ok (<[(length data - k)%nat:=b]> data)) as ->.
  { unfold py_setitem, py_index.
    replace ((0 <=? - Z.of_nat k) && (- Z.of_nat k <? Z.of_nat (length data))) with false
      by (symmetry; apply andb_false_iff; left; apply Z.leb_gt; lia).
    replace ((- Z.of_nat (length data) <=? - Z.of_nat k) && (- Z.of_nat k <? 0)) with true
      by (symmetry; apply andb_true_iff; split; [apply Z.leb_le | apply Z.ltb_lt]; lia).
    simpl. do 2 f_equal. lia. }
  rewrite py_setitem_nat by lia. simpl.
  replace (- Z.of_nat k + 1) with (- Z.of_nat (k - 1)) by lia.
  rewrite IH by (rewrite length_insert; lia).
  rewrite length_insert. do 2 f_equal. lia.
Qed.

(** X6. A negative write offset is not turned down: it counts from the
    end of the buffer, as Python indices do. A payload written at offset
    [-k] that is no longer than [k] lands at [len - k]. *)
Theorem negative_offset_from_end (data p : bytes) (k : nat) :
  (length p ≤ k ≤ length data)%nat →
  write_payload data (- Z.of_nat k) p = Ok (place data ((length data - k)%nat, p)).
Proof.
  intros Hk. rewrite write_payload_from_end by done.
  apply write_payload_place. unfold fits. simpl. lia.
Qed.

Lemma negative_offset_from_end_witness :
  (length [x07; x08] ≤ 3 ≤ length [x01; x02; x03; x04])%nat ∧
  write_payload [x01; x02; x03; x04] (- Z.of_nat 3) [x07; x08] =
    Ok (place [x01; x02; x03; x04] ((length [x01; x02; x03; x04] - 3)%nat, [x07; x08])).
Proof.
  assert (length [x07; x08] ≤ 3 ≤ length [x01; x02; x03; x04])%nat as H by (simpl; lia).
  split; [exact H|]. exact (negative_offset_from_end _ _ 3 H).
Defined.

Lemma place_twice (data : bytes) (c : chunk) :
  fits (length data) c → place (place data c) c = place data c.
Proof.
  intros Hf. apply list_eq. intros j.
  rewrite (lookup_place (place data c)) by (by rewrite length_place).
  destruct (decide (inside j c)) as [Hin|Hout]; [|done].
  rewrite lookup_place by done. by destruct (decide _).
Qed.

(** X7. Completion goes by the count of bytes received, not by what the
    buffer holds: the same packet delivered twice, carrying half of the
    declared total, completes the transfer with the other half of the
    buffer still zero. *)
Theorem packet_twice_completes (cb : bool) (total : nat) (inp : bytes) (c : chunk) :
  carries total inp c → fits total c → c.2 ≠ [] →
  total = (2 * length c.2)%nat →
  read_loop cb reader_init [Response inp; Response inp] =
    Completed {| samples_total := Z.of_nat total;
                 samples_data := place (replicate total x00) c;
                 samples_got := Z.of_nat total;
                 meta := py_slice inp 29 128;
                 progress := if cb
                             then [(Z.of_nat (length c.2), Z.of_nat total);
                                   (Z.of_nat total, Z.of_nat total)]
                             else [] |}.
Proof.
  intros Hc Hf Hne Ht.
  assert (0 < length c.2)%nat by (destruct (c.2); [done | simpl; lia]).
  simpl. rewrite (readPacket_first cb total inp c) by done. simpl.
  replace (Z.of_nat (length c.2) =? Z.of_nat total) with false
    by (symmetry; apply Z.eqb_neq; lia).
  rewrite (readPacket_next cb _ total inp c);
    [| done | done | done | simpl; rewrite length_place; rewrite length_replicate; done].
  simpl.
  replace (Z.of_nat (length c.2) + Z.of_nat (length c.2)) with (Z.of_nat total) by lia.
  rewrite Z.eqb_refl, place_twice by (by rewrite length_replicate).
  unfold reports. destruct cb; simpl; [|done].
  by replace (Z.of_nat (length c.2) + Z.of_nat (length c.2)) with (Z.of_nat total) by lia.
Qed.

Lemma packet_twice_completes_witness :
  (carries 4 (packet 2 4 0 m0 [x01; x02]) (0%nat, [x01; x02]) ∧
   fits 4 (0%nat, [x01; x02]) ∧ (0%nat, [x01; x02]).2 ≠ [] ∧
   4%nat = (2 * length (0%nat, [x01; x02]).2)%nat) ∧
  read_loop true reader_init
    [Response (packet 2 4 0 m0 [x01; x02]); Response (packet 2 4 0 m0 [x01; x02])] =
    Completed {| samples_total := 4; samples_data := [x01; x02; x00; x00];
                 samples_got := 4; meta := m0; progress := [(2, 4); (4, 4)] |}.
Proof.
  assert (carries 4 (packet 2 4 0 m0 [x01; x02]) (0%nat, [x01; x02])) as H1.
  { apply (framed_carries _ _ _ _ _ 2); first [lia | vm_compute; reflexivity]. }
  assert (fits 4 (0%nat, [x01; x02])) as H2 by (unfold fits; simpl; lia).
  assert ((0%nat, [x01; x02]).2 ≠ []) as H3 by done.
  assert (4%nat = (2 * length (0%nat, [x01; x02]).2)%nat) as H4 by reflexivity.
  split; [done|].
  exact (packet_twice_completes true 4 _ _ H1 H2 H3 H4).
Defined.

(** ** Responses shorter than the header and metadata *)

Lemma length_py_slice_short (inp : bytes) :
  (length inp < 128)%nat → length (py_slice inp 29 128) ≠ 99%nat.
Proof.
  intros Hlen. unfold py_slice, clip. simpl.
  rewrite length_take, length_drop. lia.
Qed.

Lemma decode_meta_wrong_length (m : bytes) :
  length m ≠ 99%nat → decode_meta m = Raise StructError.
Proof.
  intros Hlen. unfold decode_meta, unpack_meta.
  by rewrite (proj2 (Nat.eqb_neq _ _) Hlen).
Qed.

(** X8. When the first data packet is shorter than 128 bytes, the
    metadata region kept from it is too short to be unpacked: whatever is
    delivered next, the fetch returns no data. *)
Theorem short_first_packet_no_data (ch : Z) (cb : bool) (io : instrument)
    (inp : bytes) (total pos : Z) (rest : list delivery) :
  deliveries io = Response inp :: rest →
  header inp total pos →
  (length inp < 128)%nat →
  get_waveform ch cb io = Returned None None ∨ get_waveform ch cb io = Pending.
Proof.
  intros Hio Hh Hlen. unfold get_waveform. rewrite Hio. simpl.
  rewrite (readPacket_header _ _ _ _ _ Hh). simpl.
  destruct (bytearray total) as [data0|] eqn:Eb; simpl; [|by left].
  apply bytearray_Ok in Eb as [Hpos Hl0].
  change (Z.to_nat end_of_meta) with 128%nat.
  rewrite drop_ge by lia. simpl. unfold end_of_meta.
  replace (0 + (Z.of_nat (length inp) - 128) =? total) with false
    by (symmetry; apply Z.eqb_neq; lia).
  match goal with |- context [read_loop cb ?s rest] => set (st1 := s) end.
  assert (allocated st1) as Ha by (split; simpl; lia).
  destruct (read_loop cb st1 rest) as [st'|e|st'] eqn:E; [|by left|by right].
  destruct (read_loop_keeps cb rest st1 st' Ha (or_introl E)) as (_ & _ & Hm & _).
  left. unfold after_transfer.
  rewrite decode_meta_wrong_length; [done|].
  rewrite Hm. simpl. by apply length_py_slice_short.
Qed.

Lemma short_first_packet_no_data_witness :
  (deliveries (replies [Response header_only; Response one_packet]) =
     Response header_only :: [Response one_packet] ∧
   header header_only 2 0 ∧
   (length header_only < 128)%nat) ∧
  (get_waveform 1 true (replies [Response header_only; Response one_packet]) =
     Returned None None ∨
   get_waveform 1 true (replies [Response header_only; Response one_packet]) = Pending).
Proof.
  assert (header header_only 2 0) as H2.
  { split; [split; reflexivity | exists 2; split; [vm_compute; reflexivity | lia]
           | vm_compute; reflexivity | vm_compute; reflexivity]. }
  assert (length header_only < 128)%nat as H3 by (vm_compute; lia).
  split; [split_and!; [reflexivity | exact H2 | exact H3]|].
  apply (short_first_packet_no_data 1 true
           (replies [Response header_only; Response one_packet])
           header_only 2 0 [Response one_packet]);
    [reflexivity | exact H2 | exact H3].
Defined.

(** ** Channel flags *)

Lemma py_slice_one (m : bytes) (i : nat) (b : byte) :
  m !! i = Some b → py_slice m (Z.of_nat i) (Z.of_nat (S i)) = [b].
Proof.
  intros Hb. pose proof (lookup_lt_Some _ _ _ Hb).
  rewrite py_slice_nat by lia. rewrite (drop_S _ _ _ Hb).
  by replace (S i - i)%nat with 1%nat by lia.
Qed.

(** X9. The four channel flags are read as decimal digits and added up:
    a metadata region decodes only if each flag byte is an ASCII digit,
    the channel count is then the sum of the four digits (between 0 and
    36), and a flag byte that is no digit, such as a raw 0 or 1, makes the
    decoding raise [ValueError]. *)
Theorem flags_are_digits (m : bytes) :
  length m = 99%nat →
  (∀ d, decode_meta m = Ok d →
     ∃ d1 d2 d3 d4,
       m !! 46%nat ≫= digit_val = Some d1 ∧ m !! 47%nat ≫= digit_val = Some d2 ∧
       m !! 48%nat ≫= digit_val = Some d3 ∧ m !! 49%nat ≫= digit_val = Some d4 ∧
       channel_count d = d1 + d2 + d3 + d4 ∧ 0 ≤ channel_count d ≤ 36) ∧
  (∀ (i : nat) (b : byte), (46 ≤ i < 50)%nat → m !! i = Some b → digit_val b = None →
     decode_meta m = Raise ValueError).
Proof.
  intros Hlen.
  destruct (lookup_lt_is_Some_2 m 46) as [b1 H1]; [lia|].
  destruct (lookup_lt_is_Some_2 m 47) as [b2 H2]; [lia|].
  destruct (lookup_lt_is_Some_2 m 48) as [b3 H3]; [lia|].
  destruct (lookup_lt_is_Some_2 m 49) as [b4 H4]; [lia|].
  destruct (unpack_meta_fields m Hlen) as (f & Hf & E1 & E2 & E3 & E4 & Er & Et).
  unfold decode_meta. rewrite Hf. simpl.
  rewrite E1, E2, E3, E4.
  rewrite (py_slice_one m 46 b1 H1 : py_slice m 46 47 = [b1]),
    (py_slice_one m 47 b2 H2 : py_slice m 47 48 = [b2]),
    (py_slice_one m 48 b3 H3 : py_slice m 48 49 = [b3]),
    (py_slice_one m 49 b4 H4 : py_slice m 49 50 = [b4]).
  rewrite !int_bytes_single, H1, H2, H3, H4. simpl.
  split.
  - intros d.
    destruct (digit_val b1) as [d1|] eqn:D1; simpl; [|done].
    destruct (digit_val b2) as [d2|] eqn:D2; simpl; [|done].
    destruct (digit_val b3) as [d3|] eqn:D3; simpl; [|done].
    destruct (digit_val b4) as [d4|] eqn:D4; simpl; [|done].
    destruct (decode_sampling_rate _); simpl; [|done].
    intros [= <-]. exists d1, d2, d3, d4. simpl.
    apply digit_val_range in D1, D2, D3, D4. split_and!; (done || lia).
  - intros i b Hi Hb Hd.
    assert (i = 46 ∨ i = 47 ∨ i = 48 ∨ i = 49)%nat as [-> | [-> | [-> | ->]]] by lia;
      simplify_eq; rewrite Hd;
      repeat (match goal with |- context [digit_val ?x] => destruct (digit_val x) end; simpl);
      done.
Qed.

Lemma flags_are_digits_witness :
  length m0 = 99%nat ∧
  (decode_meta m0 = Ok {| channel_count := 2; sr := 100000000%float; tt := 0.001%float |} ∧
   ∃ d1 d2 d3 d4,
     m0 !! 46%nat ≫= digit_val = Some d1 ∧ m0 !! 47%nat ≫= digit_val = Some d2 ∧
     m0 !! 48%nat ≫= digit_val = Some d3 ∧ m0 !! 49%nat ≫= digit_val = Some d4 ∧
     2 = d1 + d2 + d3 + d4 ∧ 0 ≤ 2 ≤ 36) ∧
  ((46 ≤ 47 < 50)%nat ∧
   m_raw_flags !! 47%nat = Some x01 ∧
   digit_val x01 = None ∧
   decode_meta m_raw_flags =
     Raise ValueError).
Proof.
  assert (decode_meta m0 =
          Ok {| channel_count := 2; sr := 100000000%float; tt := 0.001%float |}) as Hd
    by (vm_compute; reflexivity).
  split; [reflexivity|]. split.
  - split; [exact Hd|].
    exact (proj1 (flags_are_digits m0 eq_refl) _ Hd).
  - split; [lia|]. split; [reflexivity|]. split; [reflexivity|].
    apply (proj2 (flags_are_digits
                    m_raw_flags eq_refl)
             47%nat x01); [lia | reflexivity | reflexivity].
Defined.

(** X10. With no channel enabled (the flags add up to zero) the fetch
    returns [None, None] for every channel asked: the stride of the
    extraction would be zero. *)
Theorem no_enabled_channel (ch : Z) (cb : bool) (io : instrument) (st : reader) (d : decoded) :
  read_loop cb reader_init (deliveries io) = Completed st →
  decode_meta (meta st) = Ok d →
  channel_count d = 0 →
  get_waveform ch cb io = Returned None None.
Proof.
  intros Hst Hd H0. unfold get_waveform, after_transfer. rewrite Hst, Hd. simpl.
  unfold extract, py_range. rewrite H0. done.
Qed.

Lemma no_enabled_channel_witness :
  (read_loop true reader_init
     (deliveries (replies [Response (packet 2 2 0 m_none [x01; x02])])) =
     Completed {| samples_total := 2; samples_data := [x01; x02]; samples_got := 2;
                  meta := m_none;
                  progress := [(2, 2)] |} ∧
   decode_meta m_none =
     Ok {| channel_count := 0; sr := 100000000%float; tt := 0.001%float |}) ∧
  get_waveform 1 true
    (replies [Response (packet 2 2 0 m_none [x01; x02])]) =
    Returned None None.
Proof.
  assert (read_loop true reader_init
     (deliveries (replies [Response (packet 2 2 0 m_none [x01; x02])])) =
     Completed {| samples_total := 2; samples_data := [x01; x02]; samples_got := 2;
                  meta := m_none;
                  progress := [(2, 2)] |}) as H1 by (vm_compute; reflexivity).
  assert (decode_meta m_none =
     Ok {| channel_count := 0; sr := 100000000%float; tt := 0.001%float |}) as H2
    by (vm_compute; reflexivity).
  split; [split; assumption|].
  exact (no_enabled_channel 1 true _ _ _ H1 H2 eq_refl).
Defined.

(** ** Channels outside the enabled ones *)

Lemma extract_blocks_from (data : bytes) (n k : Z) (nb : nat) :
  1 ≤ n → 1 ≤ k →
  (∀ j : nat, (j < nb)%nat ↔ block_start n k j < Z.of_nat (length data)) →
  (∀ j : nat, (j < nb)%nat → block_start n k j + 2000 ≤ Z.of_nat (length data)) →
  extract data n k =
    Ok (concat (map (λ j, block_samples data (block_start n k j)) (seq 0 nb))).
Proof.
  intros Hn Hk Hnb Hwhole. unfold extract, py_range, block_len.
  replace (2000 * n =? 0) with false by (symmetry; apply Z.eqb_neq; lia).
  replace (0 <? 2000 * n) with true by (symmetry; apply Z.ltb_lt; lia).
  rewrite (range_len_unique _ _ _ nb) by (done || lia).
  simpl. rewrite extend_blocks_whole.
  - simpl. by rewrite map_map.
  - apply Forall_forall. intros s Hs.
    apply list_elem_of_fmap in Hs as (j & -> & Hj).
    apply elem_of_seq in Hj. specialize (Hwhole j ltac:(lia)).
    unfold block_start in Hwhole. split; [nia|lia].
Qed.

(** X11. A channel index above the number of enabled channels is not
    turned down. On a buffer of whole blocks, channel [k + n] with [n]
    channels enabled gets the samples of channel [k] without their first
    block: with one channel enabled, channel 2 is channel 1 from its
    second block on. *)
Theorem channel_beyond_count (data : bytes) (n k rounds : Z) :
  1 ≤ n → 1 ≤ k →
  Z.of_nat (length data) = 2000 * rounds →
  ∃ samples, extract data n k = Ok samples ∧
             extract data n (k + n) = Ok (drop 2000 samples).
Proof.
  intros Hn Hk Hlen.
  set (nb := range_len ((k - 1) * 2000) (Z.of_nat (length data)) (2000 * n)).
  assert (∀ j : nat, (j < nb)%nat ↔ block_start n k j < Z.of_nat (length data)) as Hspec.
  { intros j. unfold nb, block_start. apply range_len_spec. lia. }
  assert (∀ k' (j : nat), block_start n k' j < Z.of_nat (length data) →
            block_start n k' j + 2000 ≤ Z.of_nat (length data)) as Hwhole.
  { intros k' j.
    assert (block_start n k' j = 2000 * ((k' - 1) + Z.of_nat j * n)) as ->
      by (unfold block_start; ring).
    lia. }
  assert (∀ j : nat, block_start n (k + n) j = block_start n k (S j)) as Hshift.
  { intros j. unfold block_start. rewrite Nat2Z.inj_succ. ring. }
  exists (concat (map (λ j, block_samples data (block_start n k j)) (seq 0 nb))).
  split.
  - apply extract_blocks_from; [done | done | done |].
    intros j Hj. by apply Hwhole, Hspec.
  - rewrite (extract_blocks_from data n (k + n) (pred nb)); [| done | lia | |].
    + f_equal. destruct nb as [|m] eqn:Enb; [done|].
      cbn [pred seq map concat].
      rewrite drop_app_length'.
      * rewrite <- seq_shift, map_map. f_equal. apply map_ext. intros j. by rewrite Hshift.
      * unfold block_samples. rewrite length_map, length_take, length_drop.
        pose proof (Hwhole k 0%nat (proj1 (Hspec 0%nat) ltac:(lia))) as H0.
        assert (0 ≤ block_start n k 0) by (unfold block_start; nia). lia.
    + intros j. rewrite Hshift, <- Hspec. lia.
    + intros j Hj. apply Hwhole. rewrite Hshift. apply Hspec. lia.
Qed.

Lemma channel_beyond_count_witness :
  (1 ≤ 1 ∧ 1 ≤ 1 ∧ Z.of_nat (length (replicate 2000 x19 ++ replicate 2000 xe7)) = 2000 * 2) ∧
  ∃ samples, extract (replicate 2000 x19 ++ replicate 2000 xe7) 1 1 = Ok samples ∧
             extract (replicate 2000 x19 ++ replicate 2000 xe7) 1 (1 + 1) =
               Ok (drop 2000 samples).
Proof.
  assert (Z.of_nat (length (replicate 2000 x19 ++ replicate 2000 xe7)) = 2000 * 2) as H
    by (rewrite length_app, !length_replicate; lia).
  split; [split_and!; [lia | lia | exact H]|].
  apply (channel_beyond_count _ 1 1 2); [lia | lia | exact H].
Defined.

Lemma py_slice_to_zero (data : bytes) (i : Z) : py_slice data i 0 = [].
Proof.
  unfold py_slice. replace (clip (length data) 0) with 0%nat; [done|].
  unfold clip. simpl. lia.
Qed.

(** X12. Channel 0 always fails: its first block would be the slice from
    [-2000] to [0], which is empty in Python, and unpacking it raises. *)
Theorem channel_zero_raises (data : bytes) (n : Z) :
  1 ≤ n → extract data n 0 = Raise StructError.
Proof.
  intros Hn. unfold extract, py_range, block_len.
  replace (2000 * n =? 0) with false by (symmetry; apply Z.eqb_neq; lia).
  replace (0 <? 2000 * n) with true by (symmetry; apply Z.ltb_lt; lia).
  destruct (range_len ((0 - 1) * 2000) (Z.of_nat (length data)) (2000 * n)) as [|m] eqn:E.
  - pose proof (range_len_spec ((0 - 1) * 2000) (Z.of_nat (length data)) (2000 * n) 0) as Hs.
    rewrite E in Hs. lia.
  - cbn [seq map mbind outcome_bind extend_blocks].
    replace ((0 - 1) * 2000 + Z.of_nat 0 * (2000 * n)) with (-2000) by lia.
    change (-2000 + 2000) with 0. by rewrite py_slice_to_zero.
Qed.

Lemma channel_zero_raises_witness :
  1 ≤ 2 ∧ extract (replicate 4000 x19) 2 0 = Raise StructError.
Proof.
  split; [lia|]. apply (channel_zero_raises (replicate 4000 x19) 2). lia.
Defined.

(** ** Decimal header fields *)

Lemma scan_digit_bytes (ds : list Z) :
  Forall (λ d, 0 ≤ d ≤ 9) ds → scan_digitpart (digit_bytes ds) = (ds, []).
Proof.
  induction 1 as [|d ds Hd Hds IH]; [done|].
  destruct (digit_byte_facts d Hd) as (Hv & _).
  cbn [digit_bytes map scan_digitpart]. rewrite Hv.
  destruct Hds as [|d' ds' Hd' Hds']; [done|].
  destruct (digit_byte_facts d' Hd') as (_ & _ & _ & Hu & _).
  cbn [map]. rewrite Hu.
  change (byte_of_Z (48 + d') :: map (λ d0, byte_of_Z (48 + d0)) ds')
    with (digit_bytes (d' :: ds')).
  by rewrite IH.
Qed.

Lemma lstrip_digit_bytes (ds : list Z) :
  Forall (λ d, 0 ≤ d ≤ 9) ds →
  lstrip bytes_space (reverse (digit_bytes ds)) = reverse (digit_bytes ds) ∧
  lstrip bytes_space (digit_bytes ds) = digit_bytes ds.
Proof.
  intros Hds.
  assert (∀ bs : bytes, Forall (λ b, bytes_space b = false) bs → lstrip bytes_space bs = bs)
    as Hl.
  { intros [|b bs] Hb; [done|]. apply Forall_cons in Hb as [Hb _]. simpl. by rewrite Hb. }
  assert (Forall (λ b, bytes_space b = false) (digit_bytes ds)) as Hsp.
  { unfold digit_bytes. apply Forall_fmap. eapply Forall_impl; [exact Hds|].
    intros d Hd. apply (digit_byte_facts d Hd). }
  split; apply Hl; [|done].
  by apply Forall_reverse.
Qed.

Lemma int_decode_digit_bytes (ds : list Z) :
  ds ≠ [] → Forall (λ d, 0 ≤ d ≤ 9) ds → int_decode (digit_bytes ds) = Ok (decimal ds).
Proof.
  intros Hne Hds. rewrite int_decode_ascii.
  2:{ unfold ascii, digit_bytes. apply Forall_fmap. eapply Forall_impl; [exact Hds|].
      intros d Hd. simpl. apply Z.ltb_lt, (digit_byte_facts d Hd). }
  unfold int_bytes, strip.
  destruct (lstrip_digit_bytes ds Hds) as [Hr Hl].
  rewrite Hl, Hr, reverse_involutive.
  assert (take_sign (digit_bytes ds) = (false, digit_bytes ds)) as ->.
  { destruct Hds as [|d ds Hd _]; [done|].
    destruct (digit_byte_facts d Hd) as (_ & _ & _ & _ & Hm & Hp).
    cbn [digit_bytes map take_sign]. by rewrite Hm, Hp. }
  rewrite scan_digit_bytes by done.
  by destruct ds.
Qed.

Lemma dec9_digits (n : Z) :
  0 ≤ n < 10 ^ 9 →
  dec9 n = digit_bytes (map (λ k, (n / 10 ^ k) mod 10) [8; 7; 6; 5; 4; 3; 2; 1; 0]) ∧
  Forall (λ d, 0 ≤ d ≤ 9) (map (λ k, (n / 10 ^ k) mod 10) [8; 7; 6; 5; 4; 3; 2; 1; 0]) ∧
  decimal (map (λ k, (n / 10 ^ k) mod 10) [8; 7; 6; 5; 4; 3; 2; 1; 0]) = n.
Proof.
  intros Hn. split; [reflexivity|]. split.
  - apply Forall_fmap, Forall_forall. intros k _. simpl.
    pose proof (Z.mod_pos_bound (n / 10 ^ k) 10). lia.
  - unfold decimal. cbn [map fold_left].
    change (10 ^ 0) with 1. change (10 ^ 1) with 10. change (10 ^ 2) with (10 * 10).
    change (10 ^ 3) with (10 * 10 * 10). change (10 ^ 4) with (10 * 10 * 10 * 10).
    change (10 ^ 5) with (10 * 10 * 10 * 10 * 10).
    change (10 ^ 6) with (10 * 10 * 10 * 10 * 10 * 10).
    change (10 ^ 7) with (10 * 10 * 10 * 10 * 10 * 10 * 10).
    change (10 ^ 8) with (10 * 10 * 10 * 10 * 10 * 10 * 10 * 10).
    rewrite <- !Z.div_div by lia. rewrite Z.div_1_r.
    assert (n / 10 / 10 / 10 / 10 / 10 / 10 / 10 / 10 / 10 = 0) as H9.
    { rewrite !Z.div_div by lia. apply Z.div_small. lia. }
    repeat match goal with
           | |- context [?q mod 10] =>
               let H := fresh in
               pose proof (Z.div_mod q 10 ltac:(lia)) as H;
               generalize dependent (q mod 10); intros
           end.
    lia.
Qed.

(** X13. A header field written as nine decimal digits, padded with
    zeros, is read back as its value: for every [n] below [10^9],
    [int(field.decode())] of the nine digits of [n] is [n]. *)
Theorem nine_digits_round_trip (n : Z) :
  0 ≤ n < 10 ^ 9 → int_decode (dec9 n) = Ok n.
Proof.
  intros Hn. destruct (dec9_digits n Hn) as (-> & Hds & Hdec).
  rewrite int_decode_digit_bytes; [by rewrite Hdec | done | done].
Qed.

Lemma nine_digits_round_trip_witness :
  0 ≤ 4000000 < 10 ^ 9 ∧ int_decode (dec9 4000000) = Ok 4000000.
Proof.
  split; [lia|]. apply (nine_digits_round_trip 4000000). lia.
Defined.

(** X14. A first packet framed by the instrument is read back whole: the
    declared total sizes the buffer, the payload lands at its write offset
    in a buffer of zeros, the metadata region is kept, and the count is
    the payload's length. *)
Theorem framed_packet_read_back (cb : bool) (n : Z) (total off : nat) (m p : bytes) :
  0 < n < 10 ^ 9 → Z.of_nat total < 10 ^ 9 →
  (off + length p ≤ total)%nat → length m = 99%nat →
  readPacket cb reader_init (packet n (Z.of_nat total) (Z.of_nat off) m p) =
    Ok ({| samples_total := Z.of_nat total;
           samples_data := replicate off x00 ++ p ++ replicate (total - off - length p) x00;
           samples_got := Z.of_nat (length p);
           meta := m;
           progress := if cb then [(Z.of_nat (length p), Z.of_nat total)] else [] |},
        Z.of_nat (length p) =? Z.of_nat total).
Proof.
  intros Hn Ht Hfit Hm.
  assert (∀ x, 0 ≤ x < 10 ^ 9 → int_decode (dec9 x) = Ok x) as Hdec.
  { intros x Hx. destruct (dec9_digits x Hx) as (-> & Hds & Hd).
    rewrite int_decode_digit_bytes; [by rewrite Hd | done | done]. }
  assert (carries total (packet n (Z.of_nat total) (Z.of_nat off) m p) (off, p)) as Hc.
  { apply (framed_carries _ _ _ _ _ n); try done; try (apply Hdec; lia). lia. }
  rewrite (readPacket_first cb total _ (off, p) Hc) by done.
  unfold packet. rewrite framed_meta by done.
  unfold place, reports. cbn [fst snd received map].
  rewrite take_replicate, drop_replicate.
  replace (off `min` total)%nat with off by lia.
  replace (total - (off + length p))%nat with (total - off - length p)%nat by lia.
  by destruct cb.
Qed.

Lemma framed_packet_read_back_witness :
  (0 < 2 < 10 ^ 9 ∧ Z.of_nat 6 < 10 ^ 9 ∧ (2 + length [x03; x04] ≤ 6)%nat ∧
   length m0 = 99%nat) ∧
  readPacket true reader_init (packet 2 (Z.of_nat 6) (Z.of_nat 2) m0 [x03; x04]) =
    Ok ({| samples_total := Z.of_nat 6;
           samples_data := replicate 2 x00 ++ [x03; x04] ++
                           replicate (6 - 2 - length [x03; x04]) x00;
           samples_got := Z.of_nat (length [x03; x04]);
           meta := m0;
           progress := [(Z.of_nat (length [x03; x04]), Z.of_nat 6)] |},
        Z.of_nat (length [x03; x04]) =? Z.of_nat 6).
Proof.
  split; [split_and!; (lia || reflexivity || (simpl; lia))|].
  apply (framed_packet_read_back true 2 6 2 m0 [x03; x04]);
    (lia || reflexivity || (simpl; lia)).
Defined.

(** * Properties of the application *)

(** X15. The memory depth written to the instrument is always one of the
    four known depths: the selections 40K, 400K and 4M give theirs, and
    any other text, known or not, gives 4000 points. Nothing is written
    while disconnected, and a failing write is reported, not raised. *)
Theorem memory_depth_default (depth_str : string) (wr : string → outcome unit) :
  App.set_memory_depth false depth_str wr = ([], None) ∧
  ∃ n, (App.set_memory_depth true depth_str wr).1 =
         [(":ACQuire:POINts " ++ str_of_int n)%string] ∧
       (depth_str = "40K"%string → n = 40000) ∧
       (depth_str = "400K"%string → n = 400000) ∧
       (depth_str = "4M"%string → n = 4000000) ∧
       (depth_str ≠ "40K"%string → depth_str ≠ "400K"%string →
        depth_str ≠ "4M"%string → n = 4000).
Proof.
  split; [done|].
  exists (default 4000 (App.depth_map !! depth_str)). split.
  - unfold App.set_memory_depth. simpl. by destruct (wr _).
  - split_and!.
    + by intros ->.
    + by intros ->.
    + by intros ->.
    + intros H1 H2 H3. unfold App.depth_map.
      destruct (decide (depth_str = "4K"%string)) as [->|H0]; [done|].
      rewrite !lookup_insert_ne, lookup_singleton_ne by done. done.
Qed.

Lemma omap_map {A B C : Type} (f : B → option C) (g : A → B) (l : list A) :
  omap f (map g l) = omap (λ x, f (g x)) l.
Proof.
  induction l as [|x l IH]; [done|]. simpl.
  destruct (f (g x)); [f_equal|]; exact IH.
Qed.

Lemma omap_pointwise {A B : Type} (f g : A → option B) (l : list A) :
  (∀ x, f x = g x) → omap f l = omap g l.
Proof.
  intros Hfg. induction l as [|x l IH]; [done|]. simpl.
  rewrite Hfg. destruct (g x); [f_equal|]; exact IH.
Qed.

Lemma omap_lookup_seq {A : Type} (l : list A) (n : nat) :
  omap (λ i, l !! i) (seq 0 n) = take n l.
Proof.
  induction n as [|n IH]; [done|].
  rewrite seq_S, omap_app, IH. simpl.
  destruct (l !! n) as [x|] eqn:E.
  - by rewrite (take_S_r _ _ _ E).
  - apply lookup_ge_None in E. rewrite app_nil_r, !take_ge by lia. done.
Qed.

Lemma column_of_rows (c : option (list float)) (n : nat) :
  (App.len_or_0 c ≤ n)%nat →
  omap (App.item_or_blank c) (seq 0 n) = default [] c.
Proof.
  destruct c as [l|]; simpl; intros Hn.
  - transitivity (take n l); [exact (omap_lookup_seq l n) | by apply take_ge].
  - induction (seq 0 n) as [|i s IH]; [done|]. exact IH.
Qed.

(** X16. The rows exported to CSV go up to the longer of the two time
    sequences and have four cells each. Each channel's time column,
    without its blank cells, is that channel's time sequence; so is each
    voltage column when the voltages are no more than the rows. A channel
    whose fetch failed leaves its columns blank. *)
Theorem csv_rows_columns (t1 v1 t2 v2 : option (list float)) :
  let rows := App.csv_rows t1 v1 t2 v2 in
  let column (k : nat) := omap (λ row : list App.cell, row !! k ≫= id) rows in
  length rows = (App.len_or_0 t1 `max` App.len_or_0 t2)%nat ∧
  Forall (λ row, length row = 4%nat) rows ∧
  column 0%nat = default [] t1 ∧
  column 2%nat = default [] t2 ∧
  ((App.len_or_0 v1 ≤ length rows)%nat → column 1%nat = default [] v1) ∧
  ((App.len_or_0 v2 ≤ length rows)%nat → column 3%nat = default [] v2).
Proof.
  simpl. unfold App.csv_rows.
  rewrite length_map, length_seq. split_and!.
  - done.
  - apply Forall_fmap, Forall_forall. by intros i _.
  - rewrite omap_map. simpl.
    rewrite (omap_pointwise _ (App.item_or_blank t1)) by (intros i; by destruct (App.item_or_blank t1 i)).
    apply column_of_rows. lia.
  - rewrite omap_map. simpl.
    rewrite (omap_pointwise _ (App.item_or_blank t2)) by (intros i; by destruct (App.item_or_blank t2 i)).
    apply column_of_rows. lia.
  - intros Hv. rewrite omap_map. simpl.
    rewrite (omap_pointwise _ (App.item_or_blank v1)) by (intros i; by destruct (App.item_or_blank v1 i)).
    by apply column_of_rows.
  - intros Hv. rewrite omap_map. simpl.
    rewrite (omap_pointwise _ (App.item_or_blank v2)) by (intros i; by destruct (App.item_or_blank v2 i)).
    by apply column_of_rows.
Qed.

Lemma csv_rows_columns_witness :
  ((App.len_or_0 (Some [1; 2]%float) ≤ length (App.csv_rows (Some [0; 1]%float) (Some [1; 2]%float) None None))%nat ∧
   (App.len_or_0 None ≤ length (App.csv_rows (Some [0; 1]%float) (Some [1; 2]%float) None None))%nat) ∧
  omap (λ row : list App.cell, row !! 1%nat ≫= id)
    (App.csv_rows (Some [0; 1]%float) (Some [1; 2]%float) None None) = [1; 2]%float ∧
  omap (λ row : list App.cell, row !! 3%nat ≫= id)
    (App.csv_rows (Some [0; 1]%float) (Some [1; 2]%float) None None) = [].
Proof.
  assert (App.len_or_0 (Some [1; 2]%float) ≤
          length (App.csv_rows (Some [0; 1]%float) (Some [1; 2]%float) None None))%nat as H1
    by (simpl; lia).
  assert (App.len_or_0 None ≤
          length (App.csv_rows (Some [0; 1]%float) (Some [1; 2]%float) None None))%nat as H2
    by (simpl; lia).
  pose proof (csv_rows_columns (Some [0; 1]%float) (Some [1; 2]%float) None None)
    as (_ & _ & _ & _ & Hv1 & Hv2).
  split; [done|]. split; [exact (Hv1 H1) | exact (Hv2 H2)].
Defined.

(** X17. Auto-detection keeps the first resource, in the order listed,
    whose identification contains [Hantek], [HANTEK] or [DSO2]; resources
    before it whose probe raised or whose identification matches none of
    the three are passed over; it finds nothing exactly when every
    resource is passed over. *)
Theorem autodetect_first_match (res : list (string * outcome string)) :
  (∀ r s, App.autodetect_hantek res = App.Detected r s ↔
          ∃ before idn after,
            res = before ++ (r, Ok idn) :: after ∧
            Forall passed_over before ∧
            App.is_hantek idn = true ∧
            s = ("Detectado: " ++ str_prefix 30 idn ++ "...")%string) ∧
  (App.autodetect_hantek res = App.NotFound ↔ Forall passed_over res).
Proof.
  induction res as [|[r0 probe] res [IHd IHn]].
  - split.
    + intros r s. split; [done|]. intros (before & idn & after & H & _).
      by destruct before.
    + done.
  - assert (∀ r s, App.autodetect_hantek res = App.Detected r s →
              passed_over (r0, probe) →
              ∃ before idn after,
                (r0, probe) :: res = before ++ (r, Ok idn) :: after ∧
                Forall passed_over before ∧ App.is_hantek idn = true ∧
                s = ("Detectado: " ++ str_prefix 30 idn ++ "...")%string) as Hstep.
    { intros r s H Hp. apply IHd in H as (before & idn & after & -> & Hb & Hi & Hs).
      exists ((r0, probe) :: before), idn, after. split_and!; try done.
      by apply Forall_cons. }
    assert (∀ r s before idn after,
              (r0, probe) :: res = before ++ (r, Ok idn) :: after →
              Forall passed_over before → App.is_hantek idn = true →
              s = ("Detectado: " ++ str_prefix 30 idn ++ "...")%string →
              passed_over (r0, probe) →
              App.autodetect_hantek res = App.Detected r s) as Hback.
    { intros r s before idn after Heq Hb Hi Hs Hp.
      destruct before as [|x before]; simpl in Heq.
      - simplify_eq. unfold passed_over in Hp. simpl in Hp. congruence.
      - simplify_eq. apply Forall_cons in Hb as [_ Hb].
        apply IHd. by exists before, idn, after. }
    simpl. destruct probe as [idn0|e].
    + destruct (App.is_hantek idn0) eqn:E.
      * split.
        -- intros r s. split.
           ++ intros [= <- <-]. by exists [], idn0, res.
           ++ intros (before & idn & after & Heq & Hb & Hi & ->).
              destruct before as [|x before]; simpl in Heq.
              ** by simplify_eq.
              ** simplify_eq. apply Forall_cons in Hb as [Hp _].
                 unfold passed_over in Hp. simpl in Hp. congruence.
        -- split; [done|]. intros [Hp _]%Forall_cons.
           unfold passed_over in Hp. simpl in Hp. congruence.
      * split.
        -- intros r s. split.
           ++ intros H. by apply Hstep.
           ++ intros (before & idn & after & Heq & Hb & Hi & Hs).
              by eapply Hback.
        -- rewrite IHn. split; [intros H; by apply Forall_cons | by intros [_ ?]%Forall_cons].
    + split.
      * intros r s. split.
        -- intros H. by apply Hstep.
        -- intros (before & idn & after & Heq & Hb & Hi & Hs).
           by eapply Hback.
      * rewrite IHn. split; [intros H; by apply Forall_cons | by intros [_ ?]%Forall_cons].
Qed.

Lemma autodetect_first_match_witness :
  (App.autodetect_hantek
     [("USB0::1"%string, Raise (VisaIOError 7));
      ("USB0::2"%string, Ok "Rigol,DS1054"%string);
      ("USB0::3"%string, Ok "Hantek,DSO2D10,1.0"%string);
      ("USB0::4"%string, Ok "HANTEK"%string)] =
     App.Detected "USB0::3" "Detectado: Hantek,DSO2D10,1.0...") ∧
  ∃ before idn after,
    [("USB0::1"%string, Raise (VisaIOError 7));
     ("USB0::2"%string, Ok "Rigol,DS1054"%string);
     ("USB0::3"%string, Ok "Hantek,DSO2D10,1.0"%string);
     ("USB0::4"%string, Ok "HANTEK"%string)] =
      before ++ ("USB0::3"%string, Ok idn) :: after ∧
    Forall passed_over before ∧
    App.is_hantek idn = true ∧
    "Detectado: Hantek,DSO2D10,1.0..."%string =
      ("Detectado: " ++ str_prefix 30 idn ++ "...")%string.
Proof.
  assert (App.autodetect_hantek
     [("USB0::1"%string, Raise (VisaIOError 7));
      ("USB0::2"%string, Ok "Rigol,DS1054"%string);
      ("USB0::3"%string, Ok "Hantek,DSO2D10,1.0"%string);
      ("USB0::4"%string, Ok "HANTEK"%string)] =
     App.Detected "USB0::3" "Detectado: Hantek,DSO2D10,1.0...") as H by reflexivity.
  split; [exact H|].
  exact (proj1 (proj1 (autodetect_first_match _) _ _) H).
Defined.

Lemma handle_consistent (a : App.state) (ev : App.event) :
  consistent a → consistent (App.handle a ev).
Proof.
  unfold consistent. destruct a as [c r bc be sv th]. simpl. intros (Hrun & -> & ->).
  destruct ev as [res [success msg]| | |];
    unfold App.handle, App.toggle_connection, App.toggle_continuous; simpl.
  - destruct c; simpl; [done|].
    destruct (String.eqb res ""); simpl; [done|].
    destruct success; simpl; [|done].
    split_and!; done.
  - destruct c; simpl; done.
  - done.
  - done.
Qed.

(** X18. Whatever the user does, in any order, continuous capture is
    never marked running while disconnected, the continuous button is
    disabled exactly while capture is marked running, and the connect
    button reads [Desconectar] exactly while connected. *)
Theorem app_stays_consistent (evs : list App.event) :
  let a := foldl App.handle App.init evs in
  (App.is_running a = true → App.is_connected a = true) ∧
  App.btn_cont_enabled a = negb (App.is_running a) ∧
  App.btn_connect a = (if App.is_connected a then "Desconectar" else "Conectar")%string.
Proof.
  assert (∀ a, consistent a → consistent (foldl App.handle a evs)) as H.
  { induction evs as [|ev evs IH]; intros a Ha; [done|].
    simpl. by apply IH, handle_consistent. }
  apply (H App.init). by split_and!.
Qed.

(** * The fetch from end to end *)

Lemma extract_whole_buffer (data : bytes) (n k rounds : Z) :
  1 ≤ n → 1 ≤ k →
  Z.of_nat (length data) = 2000 * rounds →
  ∃ samples, extract data n k = Ok samples.
Proof.
  intros Hn Hk Hlen. eexists.
  apply (extract_blocks_from data n k
           (range_len ((k - 1) * 2000) (Z.of_nat (length data)) (2000 * n))); [done|done| |].
  - intros j. unfold block_start. apply range_len_spec. lia.
  - intros j Hj. apply range_len_spec in Hj; [|lia].
    assert ((k - 1) * 2000 + Z.of_nat j * (2000 * n) = 2000 * ((k - 1) + Z.of_nat j * n))
      as Hs by ring.
    unfold block_start. lia.
Qed.

(** X19. The steps of a fetch fit together: when the packet loop
    completes with a buffer of whole blocks, the metadata decodes with at
    least one channel enabled and a sampling rate other than zero, and
    the instrument answers the offset and scale queries with numbers,
    [get_waveform] returns, for any channel from 1 up, the voltages of the
    channel's samples and as many times [i / sr - tt]. *)
Theorem fetch_returns_sequences (ch : Z) (cb : bool) (io : instrument) (st : reader)
    (d : decoded) (rounds : Z) (so ss : str) (offset scale : float) :
  read_loop cb reader_init (deliveries io) = Completed st →
  decode_meta (meta st) = Ok d →
  1 ≤ channel_count d → 1 ≤ ch →
  samples_total st = 2000 * rounds →
  offset_reply io = Ok so → float_str so = Ok offset →
  scale_reply io = Ok ss → float_str ss = Ok scale →
  (sr d =? 0)%float = false →
  ∃ samples,
    extract (samples_data st) (channel_count d) ch = Ok samples ∧
    get_waveform ch cb io =
      Returned
        (Some (map (λ i : nat, (float_of_Z (Z.of_nat i) / sr d - tt d)%float)
                   (seq 0 (length samples))))
        (Some (voltaje samples scale offset)).
Proof.
  intros Hst Hd Hn Hch Htot Ho Hof Hs Hsf Hr.
  destruct (read_loop_from_init cb _ _ Hst) as [[_ Hlen] _].
  destruct (extract_whole_buffer (samples_data st) (channel_count d) ch rounds)
    as [samples He]; [done | done | lia |].
  exists samples. split; [done|].
  unfold get_waveform, after_transfer.
  rewrite Hst, Hd. simpl. rewrite He. simpl.
  rewrite Ho. simpl. rewrite Hof. simpl. rewrite Hs. simpl. rewrite Hsf. simpl.
  by rewrite calibrate_nonzero.
Qed.

Lemma fetch_returns_sequences_witness :
  (read_loop true reader_init (deliveries io_one_block) = Completed one_block_read ∧
   decode_meta (meta one_block_read) =
     Ok {| channel_count := 1; sr := 100000000%float; tt := 0.001%float |} ∧
   samples_total one_block_read = 2000 * 1 ∧
   offset_reply io_one_block = Ok (text "0.0") ∧ float_str (text "0.0") = Ok 0%float ∧
   scale_reply io_one_block = Ok (text "1.0") ∧ float_str (text "1.0") = Ok 1%float ∧
   (100000000 =? 0)%float = false) ∧
  ∃ samples,
    extract (samples_data one_block_read) 1 1 = Ok samples ∧
    get_waveform 1 true io_one_block =
      Returned
        (Some (map (λ i : nat, (float_of_Z (Z.of_nat i) / 100000000 - 0.001)%float)
                   (seq 0 (length samples))))
        (Some (voltaje samples 1 0)).
Proof.
  assert (read_loop true reader_init (deliveries io_one_block) = Completed one_block_read)
    as H1 by (vm_compute; reflexivity).
  assert (decode_meta (meta one_block_read) =
     Ok {| channel_count := 1; sr := 100000000%float; tt := 0.001%float |}) as H2
    by (vm_compute; reflexivity).
  assert (float_str (text "0.0") = Ok 0%float) as H3 by (vm_compute; reflexivity).
  assert (float_str (text "1.0") = Ok 1%float) as H4 by (vm_compute; reflexivity).
  split; [split_and!; (done || reflexivity)|].
  apply (fetch_returns_sequences 1 true io_one_block one_block_read
           {| channel_count := 1; sr := 100000000%float; tt := 0.001%float |}
           1 (text "0.0") (text "1.0") 0%float 1%float);
    first [done | reflexivity | simpl; lia].
Defined.

Lemma readPacket_reported cb st inp st' b :
  readPacket cb st inp = Ok (st', b) → reported cb st → reported cb st'.
Proof.
  intros H Hr.
  apply readPacket_Ok in H as [[-> _]|(total & data0 & m & pos & data' & Hfirst & _ & -> & _)];
    [done|].
  unfold reported in *. destruct cb; simpl; [|done].
  destruct (Z.eqb_spec (samples_total st) (-1)) as [E|E].
  - destruct Hfirst as [Hb _]. apply bytearray_Ok in Hb as [? _].
    destruct Hr as [[_ ->]|[? _]]; [|done].
    right. split_and!; [lia | by repeat constructor | by exists []].
  - destruct Hfirst as (-> & _ & _). destruct Hr as [[? _]|(_ & Hall & _)]; [done|].
    right. split_and!; [done | | by eexists].
    apply Forall_app. split; [done | by repeat constructor].
Qed.

Lemma read_loop_reported cb : ∀ ds st st',
  reported cb st →
  read_loop cb st ds = Completed st' ∨ read_loop cb st ds = Reading st' →
  reported cb st'.
Proof.
  induction ds as [|d ds IH]; intros st st' Hr; simpl.
  - by intros [?|[= <-]].
  - destruct d as [inp|status]; [|intros [?|?]; done].
    destruct (readPacket cb st inp) as [[st1 b]|e] eqn:E; [|intros [?|?]; done].
    apply readPacket_reported in E; [|done].
    destruct b; [intros [[= <-]|?]; done|]. by apply IH.
Qed.

(** X20. With an observer, the calls made during a transfer that
    completes all carry the declared total, and the last one reports the
    total as received; without an observer no call is recorded. *)
Theorem last_report_is_total (cb : bool) (ds : list delivery) (st : reader) :
  read_loop cb reader_init ds = Completed st →
  if cb then
    Forall (λ c : Z * Z, c.2 = samples_total st) (progress st) ∧
    ∃ earlier, progress st = earlier ++ [(samples_total st, samples_total st)]
  else progress st = [].
Proof.
  intros H.
  destruct (read_loop_from_init cb ds st H) as [[Hpos _] Hgot].
  assert (reported cb reader_init) as H0 by (destruct cb; [by left | done]).
  pose proof (read_loop_reported cb ds _ st H0 (or_introl H)) as Hr.
  unfold reported in Hr. destruct cb; [|done].
  destruct Hr as [[? _]|(_ & Hall & earlier & He)]; [lia|].
  split; [done|]. exists earlier. by rewrite He, Hgot.
Qed.

Lemma last_report_is_total_witness :
  read_loop true reader_init (map Response swapped_inps) =
    Completed {| samples_total := 6; samples_data := [x01; x02; x03; x04; x05; x06];
                 samples_got := 6; meta := m0; progress := [(2, 6); (4, 6); (6, 6)] |} ∧
  Forall (λ c : Z * Z, c.2 = 6) [(2, 6); (4, 6); (6, 6)] ∧
  ∃ earlier, [(2, 6); (4, 6); (6, 6)] = earlier ++ [(6, 6)].
Proof.
  assert (read_loop true reader_init (map Response swapped_inps) =
    Completed {| samples_total := 6; samples_data := [x01; x02; x03; x04; x05; x06];
                 samples_got := 6; meta := m0; progress := [(2, 6); (4, 6); (6, 6)] |}) as H
    by (vm_compute; reflexivity).
  split; [exact H|]. exact (last_report_is_total true _ _ H).
Defined.

Lemma memory_depth_default_witness :
  ∃ n, (App.set_memory_depth true "40K" (λ _, Ok ())).1 =
         [(":ACQuire:POINts " ++ str_of_int n)%string] ∧ n = 40000.
Proof.
  destruct (proj2 (memory_depth_default "40K" (λ _, Ok ()))) as (n & Hcmd & H40 & _).
  exists n. split; [exact Hcmd | exact (H40 eq_refl)].
Defined.

Lemma app_stays_consistent_witness :
  App.is_running
    (foldl App.handle App.init
       [App.ToggleConnection "USB0::3" (true, "Hantek,DSO2D10"%string);
        App.ToggleContinuous]) = true ∧
  App.is_connected
    (foldl App.handle App.init
       [App.ToggleConnection "USB0::3" (true, "Hantek,DSO2D10"%string);
        App.ToggleContinuous]) = true.
Proof.
  assert (App.is_running
    (foldl App.handle App.init
       [App.ToggleConnection "USB0::3" (true, "Hantek,DSO2D10"%string);
        App.ToggleContinuous]) = true) as H by reflexivity.
  split; [exact H|].
  exact (proj1 (app_stays_consistent
                  [App.ToggleConnection "USB0::3" (true, "Hantek,DSO2D10"%string);
                   App.ToggleContinuous]) H).
Defined.
